(** * LAN_chat: the connection registry of [chat_peer.py]

    A shallow embedding of class [ChatPeer] (src/chat_peer.py): the
    connection table, the id counter, the lock, the running flag and the
    methods that touch them, followed by the properties of the
    specification that are stated about them.

    Python objects are modelled as follows.
    - [self.connections], a dict from int to a tuple
      [(socket, addr, port)], is a [gmap Z conn].  Ids are inserted in
      increasing order, so the dict's insertion order is the ascending
      order of its keys.
    - A socket object is its identity, a [Sock]; the operating system
      keeps the set of handles that were closed.
    - Statements run in a state-and-exception monad [M]; blocking forever
      (acquiring the non-reentrant [threading.Lock] that the same call
      already holds) is the third outcome, [Hang].
    - What the network answers to a blocking call is an argument of the
      method that makes the call (an [io] value per call).
    - Every call on the socket API, every [print] and every thread start
      is appended to a trace. *)

From stdpp Require Import base gmap sets list strings pretty sorting.
From Stdlib Require Import ZArith Strings.Byte Strings.Ascii Lia.

Open Scope Z_scope.

(** ** Python values *)

(** Exceptions.  Everything but [SystemExit] derives from [Exception]. *)
Inductive exc_class :=
| socket_timeout
| OSError
| ValueError
| AttributeError
| UnboundLocalError
| KeyError.

Inductive exn :=
| PyExc (c : exc_class) (msg : string)
| SystemExit (code : Z).

Definition is_socket_timeout (e : exn) : bool :=
  match e with PyExc socket_timeout _ => true | _ => false end.

Definition is_Exception (e : exn) : bool :=
  match e with PyExc _ _ => true | SystemExit _ => false end.

(** [str(e)] as it appears in an f-string. *)
Definition exn_str (e : exn) : string :=
  match e with PyExc _ msg => msg | SystemExit code => pretty code end.

(** A [str] whose length matters is a list of code points; addresses
    and printed lines are ASCII [string]s. *)
Definition pystr := list Z.

Definition byte_of_Z (z : Z) : byte := byte_of_ascii (ascii_of_N (Z.to_N z)).

(** [chr(c).encode()]: UTF-8; lone surrogates cannot be encoded. *)
Definition utf8_char (c : Z) : option (list byte) :=
  if c <? 0 then None
  else if c <? 128 then Some [byte_of_Z c]
  else if c <? 2048 then
    Some [byte_of_Z (Z.lor 192 (Z.shiftr c 6));
          byte_of_Z (Z.lor 128 (Z.land c 63))]
  else if (55296 <=? c) && (c <=? 57343) then None
  else if c <? 65536 then
    Some [byte_of_Z (Z.lor 224 (Z.shiftr c 12));
          byte_of_Z (Z.lor 128 (Z.land (Z.shiftr c 6) 63));
          byte_of_Z (Z.lor 128 (Z.land c 63))]
  else if c <? 1114112 then
    Some [byte_of_Z (Z.lor 240 (Z.shiftr c 18));
          byte_of_Z (Z.lor 128 (Z.land (Z.shiftr c 12) 63));
          byte_of_Z (Z.lor 128 (Z.land (Z.shiftr c 6) 63));
          byte_of_Z (Z.lor 128 (Z.land c 63))]
  else None.

(** [message.encode()]; [None] stands for [UnicodeEncodeError]. *)
Fixpoint str_encode (m : pystr) : option (list byte) :=
  match m with
  | [] => Some []
  | c :: rest =>
      match utf8_char c, str_encode rest with
      | Some bs, Some tl => Some (bs ++ tl)
      | _, _ => None
      end
  end.

(** [str(n).encode()] for an int [n]. *)
Definition int_encode (n : Z) : list byte := String.list_byte_of_string (pretty n).

Definition nl : string := String (ascii_of_N 10) "".

(** Library functions the class calls and whose definition lies outside
    the repository. *)
Record PyLib := {
  (** [socket.inet_aton(ip)] returns ([true]) or raises [socket.error]. *)
  inet_aton : string → bool;
  (** [data.decode()]; [None] is [UnicodeDecodeError], a [ValueError]. *)
  bytes_decode : list byte → option pystr;
  (** [int(text)]; [None] is [ValueError]. *)
  py_int : pystr → option Z
}.

(** ** The process state *)

Definition Sock := nat.

(** The tuple [(socket, addr, port)] stored under a connection id. *)
Record conn := Conn { c_sock : Sock; c_addr : string; c_port : Z }.

Inductive sock_kind := SOCK_STREAM | SOCK_DGRAM.

Inductive event :=
| EvPrint (line : string)
| EvPrintMessage (message : pystr)
| EvSocket (s : Sock) (k : sock_kind)
| EvAccept (listener : Sock)
| EvConnect (s : Sock) (ip : string) (port : Z)
| EvSend (s : Sock) (data : list byte)
| EvRecv (s : Sock)
| EvShutdown (s : Sock) (how : Z)
| EvClose (s : Sock)
| EvSpawn (conn_id : Z) (s : Sock) (addr : string).

Record Sys := mkSys {
  port : Z;
  connections : gmap Z conn;
  connection_counter : Z;
  lock : bool;
  running : bool;
  server_socket : Sock;
  next_sock : Sock;
  closed : gset Sock;
  trace : list event
}.

Definition set_connections (f : gmap Z conn → gmap Z conn) (s : Sys) : Sys :=
  mkSys (port s) (f (connections s)) (connection_counter s) (lock s)
        (running s) (server_socket s) (next_sock s) (closed s) (trace s).

Definition set_counter (n : Z) (s : Sys) : Sys :=
  mkSys (port s) (connections s) n (lock s)
        (running s) (server_socket s) (next_sock s) (closed s) (trace s).

Definition set_lock (b : bool) (s : Sys) : Sys :=
  mkSys (port s) (connections s) (connection_counter s) b
        (running s) (server_socket s) (next_sock s) (closed s) (trace s).

Definition set_running (b : bool) (s : Sys) : Sys :=
  mkSys (port s) (connections s) (connection_counter s) (lock s)
        b (server_socket s) (next_sock s) (closed s) (trace s).

Definition set_next_sock (n : Sock) (s : Sys) : Sys :=
  mkSys (port s) (connections s) (connection_counter s) (lock s)
        (running s) (server_socket s) n (closed s) (trace s).

Definition add_closed (c : Sock) (s : Sys) : Sys :=
  mkSys (port s) (connections s) (connection_counter s) (lock s)
        (running s) (server_socket s) (next_sock s) ({[c]} ∪ closed s) (trace s).

Definition log (e : event) (s : Sys) : Sys :=
  mkSys (port s) (connections s) (connection_counter s) (lock s)
        (running s) (server_socket s) (next_sock s) (closed s) (trace s ++ [e]).

(** [ChatPeer.__init__]: empty table, counter 0, lock free, running,
    the listening socket created, bound and listening. *)
Definition init (p : Z) : Sys :=
  mkSys p ∅ 0 false true 0%nat 1%nat ∅ [EvSocket 0%nat SOCK_STREAM].

(** ** The monad of statements *)

Inductive result (A : Type) :=
| Ret (a : A) (s : Sys)
| Raise (e : exn) (s : Sys)
| Hang (s : Sys).
Arguments Ret {A} a s.
Arguments Raise {A} e s.
Arguments Hang {A} s.

Definition M (A : Type) := Sys → result A.

Definition state_of {A} (r : result A) : Sys :=
  match r with Ret _ s | Raise _ s | Hang s => s end.

Definition ret {A} (a : A) : M A := fun s => Ret a s.

Definition bind {A B} (m : M A) (k : A → M B) : M B := fun s =>
  match m s with
  | Ret a s' => k a s'
  | Raise e s' => Raise e s'
  | Hang s' => Hang s'
  end.

#[global] Instance M_ret : MRet M := @ret.
#[global] Instance M_bind : MBind M := fun A B k m => bind m k.

Definition raise {A} (e : exn) : M A := fun s => Raise e s.

Definition get {A} (f : Sys → A) : M A := fun s => Ret (f s) s.

Definition modify (f : Sys → Sys) : M unit := fun s => Ret tt (f s).

(** [try: body except <catches>: handler].  [handler e = None] when no
    clause matches [e], which then propagates. *)
Definition try_except {A} (body : M A) (handler : exn → option (M A)) : M A :=
  fun s =>
    match body s with
    | Ret a s' => Ret a s'
    | Raise e s' =>
        match handler e with
        | Some h => h s'
        | None => Raise e s'
        end
    | Hang s' => Hang s'
    end.

(** [try: body finally: cleanup]. *)
Definition try_finally {A} (body : M A) (cleanup : M unit) : M A := fun s =>
  match body s with
  | Ret a s' => bind cleanup (fun _ => ret a) s'
  | Raise e s' => bind cleanup (fun _ => raise e) s'
  | Hang s' => Hang s'
  end.

(** [with self.lock: body].  [threading.Lock] is not reentrant: when the
    lock is taken the statement waits for a release.  No [with] block of
    the class waits for another thread, so between two method calls the
    lock is free unless a call is stuck inside its block; a statement
    that finds the lock taken is therefore either inside a call that
    itself holds the lock or behind a call that never releases it, and
    in both cases it waits forever. *)
Definition with_lock {A} (body : M A) : M A := fun s =>
  if lock s then Hang s
  else
    match body (set_lock true s) with
    | Ret a s' => Ret a (set_lock false s')
    | Raise e s' => Raise e (set_lock false s')
    | Hang s' => Hang s'
    end.

Definition print (line : string) : M unit := modify (log (EvPrint line)).

(** ** The socket API *)

(** What the network answers to one blocking call. *)
Inductive io (A : Type) :=
| IoOk (a : A)
| IoTimeout
| IoErr (msg : string).
Arguments IoOk {A} a.
Arguments IoTimeout {A}.
Arguments IoErr {A} msg.

Definition io_ok {A} (r : io A) : bool :=
  match r with IoOk _ => true | _ => false end.

(** A call on a closed handle fails with EBADF; otherwise the network
    decides. *)
Definition sock_call {A} (c : Sock) (r : io A) : M A := fun s =>
  if bool_decide (c ∈ closed s) then Raise (PyExc OSError "Bad file descriptor") s
  else
    match r with
    | IoOk a => Ret a s
    | IoTimeout => Raise (PyExc socket_timeout "timed out") s
    | IoErr msg => Raise (PyExc OSError msg) s
    end.

(** [socket.socket(AF_INET, kind)]: a fresh socket object. *)
Definition socket_new (k : sock_kind) : M Sock :=
  c ← get next_sock;
  modify (fun s => log (EvSocket c k) (set_next_sock (S c) s)) ;;
  ret c.

Definition sock_connect (c : Sock) (ip : string) (p : Z) (r : io unit) : M unit :=
  modify (log (EvConnect c ip p)) ;; sock_call c r.

Definition sock_send (c : Sock) (data : list byte) (r : io unit) : M unit :=
  modify (log (EvSend c data)) ;; sock_call c r.

(** [c.recv(bufsize)]: at most [bufsize] bytes of what arrived. *)
Definition sock_recv (c : Sock) (bufsize : nat) (r : io (list byte)) : M (list byte) :=
  modify (log (EvRecv c)) ;;
  data ← sock_call c r;
  ret (take bufsize data).

Definition sock_shutdown (c : Sock) (how : Z) (r : io unit) : M unit :=
  modify (log (EvShutdown c how)) ;; sock_call c r.

(** [c.close()]: closing twice is harmless; [close] itself does not
    raise. *)
Definition sock_close (c : Sock) : M unit :=
  modify (fun s => log (EvClose c) (add_closed c s)).

(** [listener.accept()]: the peer's address and a fresh socket object
    for the connection. *)
Definition sock_accept (l : Sock) (r : io string) : M (Sock * string) :=
  modify (log (EvAccept l)) ;;
  addr ← sock_call l r;
  c ← get next_sock;
  modify (set_next_sock (S c)) ;;
  ret (c, addr).

(** ** Name resolution inside [handle_shutdown]

    [handle_shutdown] assigns to the name [socket] (the tuple unpacking
    of line 215), so [socket] is a local variable of the whole function
    body and hides the module [socket] there.  A local read before its
    first assignment raises [UnboundLocalError]; an attribute read goes
    to the object the name is bound to. *)
Inductive pyobj :=
| ObjModuleSocket
| ObjSocket (s : Sock).

Definition load_fast (name : string) (v : option Sock) : M pyobj :=
  match v with
  | Some s => ret (ObjSocket s)
  | None =>
      raise (PyExc UnboundLocalError
               ("cannot access local variable '" +:+ name +:+ "'"))
  end.

(** [obj.SHUT_RD], [obj.SHUT_WR], [obj.SHUT_RDWR]: constants of the
    module; a socket object has no such attribute. *)
Definition getattr_const (obj : pyobj) (name : string) : M Z :=
  match obj with
  | ObjModuleSocket =>
      if bool_decide (name = "SHUT_RD") then ret 0
      else if bool_decide (name = "SHUT_WR") then ret 1
      else if bool_decide (name = "SHUT_RDWR") then ret 2
      else raise (PyExc AttributeError
                    ("module 'socket' has no attribute '" +:+ name +:+ "'"))
  | ObjSocket _ =>
      raise (PyExc AttributeError
               ("'socket' object has no attribute '" +:+ name +:+ "'"))
  end.

(** ** The dict [self.connections] *)

(** [list(self.connections.keys())], in insertion order. *)
Definition dict_keys (m : gmap Z conn) : list Z :=
  merge_sort Z.le (elements (dom m)).

(** [self.connections.values()], in insertion order. *)
Definition dict_values (m : gmap Z conn) : list conn :=
  omap (fun k => m !! k) (dict_keys m).

(** [self.connections.items()], in insertion order. *)
Definition dict_items (m : gmap Z conn) : list (Z * conn) :=
  omap (fun k => pair k <$> m !! k) (dict_keys m).

(** [del self.connections[conn_id]]. *)
Definition dict_delitem (conn_id : Z) : M unit := fun s =>
  match connections s !! conn_id with
  | Some _ => Ret tt (set_connections (delete conn_id) s)
  | None => Raise (PyExc KeyError (pretty conn_id)) s
  end.

(** [self.connections[conn_id]]. *)
Definition dict_getitem (conn_id : Z) : M conn := fun s =>
  match connections s !! conn_id with
  | Some c => Ret c s
  | None => Raise (PyExc KeyError (pretty conn_id)) s
  end.

(** The two statements under the lock in [accept_connections] and
    [connect_to_peer]:
    [self.connection_counter += 1;
     self.connections[self.connection_counter] = (sock, addr, their_port)]. *)
Definition register (c : Sock) (addr : string) (their_port : Z) : M unit :=
  modify (fun s => set_counter (connection_counter s + 1) s) ;;
  n ← get connection_counter;
  modify (set_connections (insert n (Conn c addr their_port))).

(** [threading.Thread(target=self.handle_connection, args=...).start()];
    the first argument is read from [self.connection_counter] at that
    point. *)
Definition spawn_handler (c : Sock) (addr : string) : M unit :=
  n ← get connection_counter;
  modify (log (EvSpawn n c addr)).

(** [except Exception: <h>] and [except Exception: pass]. *)
Definition catch_Exception {A} (h : exn → M A) (e : exn) : option (M A) :=
  if is_Exception e then Some (h e) else None.

Section ChatPeer.

Context (lib : PyLib).

(** [int(data.decode())]. *)
Definition int_of_bytes (data : list byte) : M Z :=
  match bytes_decode lib data with
  | None => raise (PyExc ValueError "'utf-8' codec can't decode bytes")
  | Some text =>
      match py_int lib text with
      | Some n => ret n
      | None => raise (PyExc ValueError "invalid literal for int() with base 10")
      end
  end.

(** ** [get_my_ip] (lines 33-44)

    [route] is the outcome of the datagram [connect] followed by
    [getsockname()[0]]. *)
Definition get_my_ip (route : io string) : M string :=
  s ← socket_new SOCK_DGRAM;
  try_finally
    (try_except
       (modify (log (EvConnect s "10.255.255.255" 1)) ;; sock_call s route)
       (catch_Exception (fun _ => ret "127.0.0.1")))
    (sock_close s).

(** ** [handle_disconnect] (lines 105-113) *)
Definition handle_disconnect (conn_id : Z) : M unit :=
  with_lock
    (m ← get connections;
     match m !! conn_id with
     | Some (Conn sock addr p) =>
         sock_close sock ;;
         dict_delitem conn_id ;;
         print (nl +:+ "Connection " +:+ pretty conn_id +:+ " (" +:+ addr +:+ ":"
                +:+ pretty p +:+ ") has been terminated") ;;
         print ">> "
     | None => ret tt
     end).

(** ** [terminate_connection] (lines 173-184) *)
Definition terminate_connection (conn_id : Z) : M bool :=
  with_lock
    (m ← get connections;
     match m !! conn_id with
     | None =>
         print ("Connection " +:+ pretty conn_id +:+ " does not exist") ;;
         ret false
     | Some (Conn sock addr p) =>
         sock_close sock ;;
         dict_delitem conn_id ;;
         print ("Connection " +:+ pretty conn_id +:+ " (" +:+ addr +:+ ":"
                +:+ pretty p +:+ ") terminated") ;;
         ret true
     end).

(** ** [send_message] (lines 186-204)

    [write] is the outcome of the network write, should it be made.  In
    [self.connections[conn_id][0].send(message.encode())] the argument
    is evaluated before the call. *)
Definition send_message (write : io unit) (conn_id : Z) (message : pystr) : M bool :=
  if (100 <? Z.of_nat (length message)) then
    print "Message too long (max 100 characters)" ;;
    ret false
  else
    with_lock
      (m ← get connections;
       match m !! conn_id with
       | None =>
           print ("Connection " +:+ pretty conn_id +:+ " does not exist") ;;
           ret false
       | Some _ =>
           try_except
             (c ← dict_getitem conn_id;
              data ← match str_encode message with
                     | Some data => ret data
                     | None => raise (PyExc ValueError "'utf-8' codec can't encode character")
                     end;
              sock_send (c_sock c) data write ;;
              print ("Message sent to " +:+ pretty conn_id) ;;
              ret true)
             (catch_Exception (fun e =>
                print ("Failed to send message: " +:+ exn_str e) ;;
                handle_disconnect conn_id ;;
                ret false))
       end).

(** ** [list_connections] (lines 163-171) *)

(** The format [{addr:<15}]: left-aligned in a field of 15. *)
Definition ljust15 (a : string) : string :=
  a +:+ String.concat "" (replicate (15 - String.length a)%nat " ").

Definition list_connections : M unit :=
  m ← get connections;
  if bool_decide (m = ∅) then print "No active connections"
  else
    print "id: IP address      Port No." ;;
    foldr (fun '(conn_id, c) k =>
             print (pretty conn_id +:+ ": " +:+ ljust15 (c_addr c) +:+ " "
                    +:+ pretty (c_port c)) ;; k)
          (ret tt) (dict_items m).

(** ** [handle_shutdown] (lines 206-229)

    [down c] is what a [shutdown] call on [c] would answer.  The method
    is the flag write followed by the teardown; both halves are named
    because another thread can run between them. *)
Definition shutdown_begin : M unit :=
  print (nl +:+ "Shutting down...") ;;
  modify (set_running false).

(** One turn of the [for] loop.  The statements in the [try] are the
    unpacking, which binds the local [socket], then
    [socket.shutdown(socket.SHUT_RDWR)] and [socket.close()]; [del]
    follows the [try].  The result is the binding of the local [socket]
    after the turn. *)
Definition shutdown_one (down : Sock → io unit) (conn_id : Z)
    (local_socket : option Sock) : M (option Sock) :=
  m ← get connections;
  match m !! conn_id with
  | Some (Conn sock _ _) =>
      try_except
        (obj ← load_fast "socket" (Some sock);
         how ← getattr_const obj "SHUT_RDWR";
         sock_shutdown sock how (down sock) ;;
         sock_close sock)
        (catch_Exception (fun _ => ret tt)) ;;
      dict_delitem conn_id ;;
      ret (Some sock)
  | None =>
      (* the subscript raises KeyError, which the [try] swallows *)
      dict_delitem conn_id ;;
      ret local_socket
  end.

Fixpoint shutdown_loop (down : Sock → io unit) (ids : list Z)
    (local_socket : option Sock) : M (option Sock) :=
  match ids with
  | [] => ret local_socket
  | conn_id :: rest =>
      local_socket' ← shutdown_one down conn_id local_socket;
      shutdown_loop down rest local_socket'
  end.

Definition shutdown_rest (down : Sock → io unit) : M unit :=
  local_socket ← with_lock
    (m ← get connections;
     shutdown_loop down (dict_keys m) None);
  srv ← get server_socket;
  try_except
    (obj ← load_fast "socket" local_socket;
     how ← getattr_const obj "SHUT_RDWR";
     sock_shutdown srv how (down srv))
    (catch_Exception (fun _ => ret tt)) ;;
  sock_close srv ;;
  raise (SystemExit 0).

Definition handle_shutdown (down : Sock → io unit) : M unit :=
  shutdown_begin ;; shutdown_rest down.

(** ** [connect_to_peer] (lines 115-161) *)
Record DialNet := {
  d_route : io string;        (* inside [get_my_ip] *)
  d_connect : io unit;        (* [new_socket.connect((ip, port))] *)
  d_send : io unit;           (* [new_socket.send(...)] *)
  d_recv : io (list byte)     (* [new_socket.recv(1024)] *)
}.

Definition is_duplicate (ip : string) (p : Z) (c : conn) : bool :=
  bool_decide (c_addr c = ip) && bool_decide (c_port c = p).

Definition connect_to_peer (net : DialNet) (ip : string) (p : Z) : M bool :=
  if negb (inet_aton lib ip) then
    print "Invalid IP address" ;;
    ret false
  else
    my_ip ← get_my_ip (d_route net);
    my_port ← get port;
    if bool_decide (ip = my_ip) && bool_decide (p = my_port) then
      print "Self-connection is not allowed" ;;
      ret false
    else
      m ← get connections;
      if existsb (is_duplicate ip p) (dict_values m) then
        print "Duplicate connection is not allowed" ;;
        ret false
      else
        try_except
          (new_socket ← socket_new SOCK_STREAM;
           sock_connect new_socket ip p (d_connect net) ;;
           sock_send new_socket (int_encode my_port) (d_send net) ;;
           data ← sock_recv new_socket 1024 (d_recv net);
           their_port ← int_of_bytes data;
           with_lock (register new_socket ip their_port) ;;
           spawn_handler new_socket ip ;;
           print ("Connected to " +:+ ip +:+ ":" +:+ pretty p) ;;
           ret true)
          (catch_Exception (fun e =>
             print ("Connection failed: " +:+ exn_str e) ;;
             ret false)).

(** ** [accept_connections] (lines 46-78) *)
Record AcceptNet := {
  a_accept : io string;       (* [self.server_socket.accept()] *)
  a_recv : io (list byte);    (* [client_socket.recv(1024)] *)
  a_send : io unit            (* [client_socket.send(...)] *)
}.

(** The first statement of the [try]: [accept] (the [settimeout] on the
    fresh socket has no effect on the table). *)
Definition listener_accept (net : AcceptNet) : M (Sock * string) :=
  srv ← get server_socket;
  sock_accept srv (a_accept net).

(** The rest of the [try]: handshake, registration, thread start. *)
Definition listener_handshake (net : AcceptNet) (client_socket : Sock)
    (addr : string) : M unit :=
  data ← sock_recv client_socket 1024 (a_recv net);
  their_port ← int_of_bytes data;
  my_port ← get port;
  sock_send client_socket (int_encode my_port) (a_send net) ;;
  with_lock (register client_socket addr their_port) ;;
  print (nl +:+ "New connection from " +:+ addr +:+ ":" +:+ pretty their_port) ;;
  print ">> " ;;
  spawn_handler client_socket addr.

(** The two [except] clauses of the loop body; both fall through to the
    next turn of the loop. *)
Definition listener_except {A} (skip : A) (body : M A) : M A :=
  try_except body
    (fun e =>
       if is_socket_timeout e then Some (ret skip)
       else catch_Exception (fun e =>
              r ← get running;
              (if r : bool then print ("Error accepting connection: " +:+ exn_str e)
               else ret tt) ;;
              ret skip) e).

(** One turn of the [while] loop. *)
Definition accept_iteration (net : AcceptNet) : M unit :=
  listener_except tt
    (ca ← listener_accept net;
     listener_handshake net ca.1 ca.2).

Inductive loop_state := StillLooping | LoopLeft.

(** The loop, run against the answers of the network to its successive
    turns; [StillLooping] when the answers are used up. *)
Fixpoint accept_connections (script : list AcceptNet) : M loop_state :=
  r ← get running;
  if r : bool then
    match script with
    | [] => ret StillLooping
    | net :: rest => accept_iteration net ;; accept_connections rest
    end
  else ret LoopLeft.

(** ** [handle_connection] (lines 81-103) *)
Inductive loop_ctl := Continue | Break.

Definition reader_iteration (recv : io (list byte)) (conn_id : Z)
    (client_socket : Sock) (addr : string) : M loop_ctl :=
  try_except
    (data ← sock_recv client_socket 1024 recv;
     message ← match bytes_decode lib data with
               | Some text => ret text
               | None => raise (PyExc ValueError "'utf-8' codec can't decode bytes")
               end;
     if bool_decide (message = []) then
       handle_disconnect conn_id ;;
       ret Break
     else
       entry ← dict_getitem conn_id;
       print (nl +:+ "Message received from " +:+ addr) ;;
       print ("Sender's Port: " +:+ pretty (c_port entry)) ;;
       modify (log (EvPrintMessage message)) ;;
       print ">> " ;;
       ret Continue)
    (fun e =>
       if is_socket_timeout e then Some (ret Continue)
       else catch_Exception (fun _ =>
              r ← get running;
              (if r : bool then handle_disconnect conn_id else ret tt) ;;
              ret Break) e).

Fixpoint handle_connection (script : list (io (list byte))) (conn_id : Z)
    (client_socket : Sock) (addr : string) : M loop_state :=
  r ← get running;
  if r : bool then
    match script with
    | [] => ret StillLooping
    | recv :: rest =>
        ctl ← reader_iteration recv conn_id client_socket addr;
        match ctl with
        | Continue => handle_connection rest conn_id client_socket addr
        | Break => ret LoopLeft
        end
    end
  else ret LoopLeft.

End ChatPeer.

(** ** The running process

    Threads interleave at the granularity below.  The listener thread is
    followed through its loop: the flag test, the [accept], and the rest
    of the [try] are separate steps.  The command thread and the reader
    threads act by whole method calls ([handle_shutdown] by its two
    halves, one turn of a reader loop at a time): the table, the counter
    and the set of closed sockets are written under the lock only, apart
    from the sockets [get_my_ip] and [handle_shutdown] close, which are
    in no entry.

    The relation has every interleaving of the process and more: a
    reader turn is allowed for any id, socket and address, whatever
    thread was started with them; the teardown may come without the flag
    write; and steps are allowed after [SystemExit]. *)
Inductive listener_pc :=
| AtLoopHead
| AtAccept
| InFlight (client_socket : Sock) (addr : string)
| ListenerGone.

Record config := Config { cfg_sys : Sys; cfg_pc : listener_pc }.

Inductive action :=
| DoDial (net : DialNet) (ip : string) (p : Z)
| DoTerminate (conn_id : Z)
| DoSend (write : io unit) (conn_id : Z) (message : pystr)
| DoList
| DoShutdownBegin
| DoShutdownRest (down : Sock → io unit)
| DoRead (recv : io (list byte)) (conn_id : Z) (client_socket : Sock) (addr : string).

Section Process.

Context (lib : PyLib).

Definition listener_step (net : AcceptNet) (cfg : config) : config :=
  let s := cfg_sys cfg in
  match cfg_pc cfg with
  | AtLoopHead => Config s (if running s then AtAccept else ListenerGone)
  | AtAccept =>
      match listener_except None (ca ← listener_accept net; ret (Some ca)) s with
      | Ret (Some ca) s' => Config s' (InFlight ca.1 ca.2)
      | Ret None s' => Config s' AtLoopHead
      | Raise _ s' | Hang s' => Config s' ListenerGone
      end
  | InFlight c addr =>
      match listener_except tt (listener_handshake lib net c addr) s with
      | Ret _ s' => Config s' AtLoopHead
      | Raise _ s' | Hang s' => Config s' ListenerGone
      end
  | ListenerGone => cfg
  end.

Definition run_action (a : action) (s : Sys) : Sys :=
  match a with
  | DoDial net ip p => state_of (connect_to_peer lib net ip p s)
  | DoTerminate conn_id => state_of (terminate_connection conn_id s)
  | DoSend write conn_id message => state_of (send_message write conn_id message s)
  | DoList => state_of (list_connections s)
  | DoShutdownBegin => state_of (shutdown_begin s)
  | DoShutdownRest down => state_of (shutdown_rest down s)
  | DoRead recv conn_id c addr => state_of (reader_iteration lib recv conn_id c addr s)
  end.

Inductive step : config → config → Prop :=
| step_listener net cfg :
    step cfg (listener_step net cfg)
| step_action a cfg :
    step cfg (Config (run_action a (cfg_sys cfg)) (cfg_pc cfg)).

Definition start (p : Z) : config := Config (init p) AtLoopHead.

Definition reachable (cfg : config) : Prop := ∃ p, rtc step (start p) cfg.

End Process.

(** ** A library instance to run the model on concrete input

    Strict dotted-quad addresses, ASCII text and unsigned decimal
    literals: on such input the three functions answer as Python's do. *)
Definition digit_of (a : ascii) : option N :=
  let n := N_of_ascii a in
  if ((48 <=? n) && (n <=? 57))%N then Some (n - 48)%N else None.

Fixpoint quad_scan (s : string) (cur : option N) (dots : nat) : bool :=
  match s with
  | EmptyString => bool_decide (is_Some cur) && bool_decide (dots = 3%nat)
  | String a rest =>
      match digit_of a with
      | Some d =>
          let v := (10 * default 0 cur + d)%N in
          if (v <=? 255)%N then quad_scan rest (Some v) dots else false
      | None =>
          if bool_decide (a = "."%char) && bool_decide (is_Some cur)
          then quad_scan rest None (S dots)
          else false
      end
  end.

Definition dotted_quad (s : string) : bool := quad_scan s None 0.

Definition ascii_decode (data : list byte) : option pystr :=
  if forallb (fun b => (Byte.to_N b <? 128)%N) data
  then Some (map (fun b => Z.of_N (Byte.to_N b)) data)
  else None.

Fixpoint decimal_scan (text : pystr) (acc : Z) : option Z :=
  match text with
  | [] => Some acc
  | c :: rest =>
      if (48 <=? c) && (c <=? 57) then decimal_scan rest (10 * acc + (c - 48))
      else None
  end.

Definition decimal_int (text : pystr) : option Z :=
  match text with
  | [] => None
  | _ => decimal_scan text 0
  end.

Definition ascii_lib : PyLib :=
  {| inet_aton := dotted_quad; bytes_decode := ascii_decode; py_int := decimal_int |}.

(** ** Concrete runs *)

(** An inbound peer at 10.0.0.2 that advertises port 6000. *)
Definition inbound_ok : AcceptNet :=
  {| a_accept := IoOk "10.0.0.2"; a_recv := IoOk (int_encode 6000); a_send := IoOk tt |}.

(** A peer listening on port 5000 after its listener thread served that
    inbound connection: the table is [{1: (socket 1, "10.0.0.2", 6000)}]. *)
Definition peer_with_one_connection : Sys :=
  state_of (accept_iteration ascii_lib inbound_ok (init 5000)).

(** Fifty-one times U+00E9: 51 characters, 102 bytes in UTF-8. *)
Definition e_acute_51 : pystr := replicate 51 233.

(** A hundred times U+00E9: 100 characters, 200 bytes in UTF-8. *)
Definition e_acute_100 : pystr := replicate 100 233.

(** The letter a, 101 times. *)
Definition letter_a_101 : pystr := replicate 101 97.

(** ** Statements compared with the code *)

(** The events a call appended to the trace. *)
Definition events_since (s s' : Sys) : list event :=
  drop (length (trace s)) (trace s').

(** "Every message whose encoded length exceeds 100 is rejected by
    [send_message], with no network write." *)
Definition send_rejects_encoded_over_100 : Prop :=
  ∀ write conn_id message data s,
    str_encode message = Some data →
    (100 < length data)%nat →
    ∃ s', send_message write conn_id message s = Ret false s'
          ∧ ∀ c d, EvSend c d ∉ events_since s s'.

(** The state [get_my_ip] leaves: a datagram socket created, connected
    and closed. *)
Definition probe (s : Sys) : Sys :=
  let n := next_sock s in
  log (EvClose n)
    (add_closed n
       (log (EvConnect n "10.255.255.255" 1)
          (log (EvSocket n SOCK_DGRAM) (set_next_sock (S n) s)))).

(** The address [get_my_ip] returns. *)
Definition my_ip_of (route : io string) (s : Sys) : string :=
  if bool_decide (next_sock s ∈ closed s) then "127.0.0.1"
  else match route with IoOk ip => ip | _ => "127.0.0.1" end.

(** The three checks of [connect_to_peer], as propositions. *)
Definition self_connection (net : DialNet) (ip : string) (p : Z) (s : Sys) : Prop :=
  ip = my_ip_of (d_route net) s ∧ p = port s.

Definition duplicate_connection (ip : string) (p : Z) (s : Sys) : Prop :=
  ∃ conn_id c, connections s !! conn_id = Some c ∧ c_addr c = ip ∧ c_port c = p.


(** A dial that meets a network that answers, from 10.0.0.1. *)
Definition dial_ok : DialNet :=
  {| d_route := IoOk "10.0.0.1"; d_connect := IoOk tt; d_send := IoOk tt;
     d_recv := IoOk (int_encode 7000) |}.


(** What [int(client_socket.recv(1024).decode())] yields for the bytes
    that arrived, [None] when it raises. *)
Definition handshake_port (lib : PyLib) (data : list byte) : option Z :=
  match bytes_decode lib (take 1024 data) with
  | Some text => py_int lib text
  | None => None
  end.

(** An inbound peer whose first bytes are "hello". *)
Definition inbound_garbage : AcceptNet :=
  {| a_accept := IoOk "10.0.0.9";
     a_recv := IoOk (String.list_byte_of_string "hello");
     a_send := IoOk tt |}.

(** The state the teardown half of [handle_shutdown] leaves: the table
    emptied, the listening socket closed. *)
Definition drained (s : Sys) : Sys :=
  mkSys (port s) ∅ (connection_counter s) (lock s) (running s) (server_socket s)
        (next_sock s) ({[server_socket s]} ∪ closed s)
        (trace s ++ [EvClose (server_socket s)]).

(** The state [handle_shutdown] leaves: the flag cleared as well. *)
Definition shut_down (s : Sys) : Sys :=
  drained (set_running false (log (EvPrint (nl +:+ "Shutting down...")) s)).

(** The two letters "hi". *)
Definition message_hi : pystr := [104; 105].



(** ** The invariant of the table *)

(** What the invariant reads of a state: the table, the counter, the
    sockets handed out and closed, the listening socket. *)
Definition core (s : Sys) : gmap Z conn * Z * Sock * gset Sock * Sock :=
  (connections s, connection_counter s, next_sock s, closed s, server_socket s).

Record table_ok (s : Sys) : Prop := {
  (** every entry holds a socket that was handed out and is not closed *)
  ok_open : ∀ conn_id c, connections s !! conn_id = Some c → c_sock c ∉ closed s;
  ok_handed_out : ∀ conn_id c,
    connections s !! conn_id = Some c → (c_sock c < next_sock s)%nat;
  ok_not_listening : ∀ conn_id c,
    connections s !! conn_id = Some c → c_sock c ≠ server_socket s;
  (** every id in the table was issued by the counter *)
  ok_issued : ∀ conn_id c,
    connections s !! conn_id = Some c → 0 < conn_id ≤ connection_counter s;
  (** no socket is shared by two entries *)
  ok_owned : ∀ id1 id2 c1 c2,
    connections s !! id1 = Some c1 → connections s !! id2 = Some c2 →
    c_sock c1 = c_sock c2 → id1 = id2;
  ok_closed_handed_out : ∀ x, x ∈ closed s → (x < next_sock s)%nat;
  ok_listening_handed_out : (server_socket s < next_sock s)%nat;
  ok_counter : 0 ≤ connection_counter s
}.

(** The socket the listener holds between [accept] and registration is
    open and in no entry. *)
Definition in_flight_ok (cfg : config) : Prop :=
  match cfg_pc cfg with
  | InFlight c _ =>
      (c < next_sock (cfg_sys cfg))%nat
      ∧ (c ∉ closed (cfg_sys cfg))
      ∧ c ≠ server_socket (cfg_sys cfg)
      ∧ ∀ conn_id e, connections (cfg_sys cfg) !! conn_id = Some e → c_sock e ≠ c
  | _ => True
  end.

Definition process_ok (cfg : config) : Prop :=
  table_ok (cfg_sys cfg) ∧ in_flight_ok cfg.

(** How one step may change the table: the counter does not decrease;
    an entry of the new table is an unchanged entry of the old one or
    sits under the id that follows the old counter; an entry whose
    socket the step closed is gone. *)
Record evolves (s s' : Sys) : Prop := {
  ev_counter : connection_counter s ≤ connection_counter s';
  ev_entries : ∀ conn_id c,
    connections s' !! conn_id = Some c →
    connections s !! conn_id = Some c
    ∨ (connections s !! conn_id = None
       ∧ conn_id = connection_counter s + 1
       ∧ connection_counter s' = connection_counter s + 1);
  ev_closed_removed : ∀ conn_id c,
    connections s !! conn_id = Some c →
    c_sock c ∈ closed s' →
    connections s' !! conn_id = None
}.

(** The changes the methods make to the table, the counter and the
    sockets. *)
Definition alloc (s : Sys) : Sys := set_next_sock (S (next_sock s)) s.

Definition registered (c : Sock) (addr : string) (p : Z) (s : Sys) : Sys :=
  set_connections (insert (connection_counter s + 1) (Conn c addr p))
    (set_counter (connection_counter s + 1) s).

Definition closed_and_removed (conn_id : Z) (c : conn) (s : Sys) : Sys :=
  set_connections (delete conn_id) (add_closed (c_sock c) s).

(** What a call may have done to the table, read on the state it leaves:
    nothing; removed one entry after closing its socket; at most
    registered one dialled peer on a fresh socket. *)
Definition unchanged (s s' : Sys) : Prop := core s' = core s.

Definition removes (conn_id : Z) (s s' : Sys) : Prop :=
  core s' = core s
  ∨ ∃ c, connections s !! conn_id = Some c
         ∧ core s' = core (closed_and_removed conn_id c s).

Definition dials (ip : string) (s s' : Sys) : Prop :=
  core s' = core s
  ∨ core s' = core (probe s)
  ∨ core s' = core (alloc (probe s))
  ∨ ∃ their_port,
      core s' = core (registered (S (next_sock s)) ip their_port (alloc (probe s))).

Definition drains (s s' : Sys) : Prop :=
  core s' = core s ∨ core s' = core (drained s).

Definition registers (c : Sock) (addr : string) (s s' : Sys) : Prop :=
  core s' = core s ∨ ∃ p, core s' = core (registered c addr p s).

(** What a whole method call of the command thread or of a reader
    thread, and the listener's [accept], may change: sockets are handed
    out in order; a socket that gets closed is a fresh one, the
    listening one, or the socket of an entry that is removed; a new
    entry sits under the next id and holds a fresh, open socket. *)
Record frame (s s' : Sys) : Prop := {
  fr_counter : connection_counter s ≤ connection_counter s';
  fr_next_sock : (next_sock s ≤ next_sock s')%nat;
  fr_listening : server_socket s' = server_socket s;
  fr_closed : ∀ x, x ∈ closed s' →
    x ∈ closed s
    ∨ (next_sock s ≤ x < next_sock s')%nat
    ∨ x = server_socket s
    ∨ ∃ conn_id c, connections s !! conn_id = Some c ∧ c_sock c = x
                   ∧ connections s' !! conn_id = None;
  fr_entries : ∀ conn_id e,
    connections s' !! conn_id = Some e →
    connections s !! conn_id = Some e
    ∨ (connections s !! conn_id = None
       ∧ conn_id = connection_counter s + 1
       ∧ connection_counter s' = connection_counter s + 1
       ∧ (next_sock s ≤ c_sock e < next_sock s')%nat
       ∧ c_sock e ∉ closed s')
}.

(** ** More concrete runs *)

(** Every [shutdown] call refused, as on a socket the peer has reset. *)
Definition shutdown_refused : Sock → io unit := fun _ => IoErr "Transport endpoint is not connected".

(** An inbound connection that is accepted and whose handshake succeeds. *)
Definition well_formed_inbound (lib : PyLib) (net : AcceptNet) : Prop :=
  ∃ addr data p,
    a_accept net = IoOk addr
    ∧ a_recv net = IoOk data
    ∧ handshake_port lib data = Some p
    ∧ a_send net = IoOk tt.

(** A second inbound peer, at 10.0.0.4, that advertises port 6001. *)
Definition inbound_ok_2 : AcceptNet :=
  {| a_accept := IoOk "10.0.0.4"; a_recv := IoOk (int_encode 6001); a_send := IoOk tt |}.

(** The status line [handle_disconnect] prints for an entry. *)
Definition terminated_line (conn_id : Z) (c : conn) : string :=
  nl +:+ "Connection " +:+ pretty conn_id +:+ " (" +:+ c_addr c +:+ ":"
  +:+ pretty (c_port c) +:+ ") has been terminated".

(** A row of the table as [list_connections] prints it. *)
Definition connection_row (conn_id : Z) (c : conn) : string :=
  pretty conn_id +:+ ": " +:+ ljust15 (c_addr c) +:+ " " +:+ pretty (c_port c).

(** An inbound peer that connects and then sends nothing. *)
Definition inbound_silent : AcceptNet :=
  {| a_accept := IoOk "10.0.0.5"; a_recv := IoTimeout; a_send := IoOk tt |}.

(** No connection attempt within the listener's timeout. *)
Definition accept_timeout : AcceptNet :=
  {| a_accept := IoTimeout; a_recv := IoTimeout; a_send := IoTimeout |}.

(** ** Two peers and the start of the program *)

(** The code points of an ASCII [string]. *)
Definition code_points (s : string) : pystr :=
  map (fun b => Z.of_N (Byte.to_N b)) (String.list_byte_of_string s).

(** [str(n)]. *)
Definition str_of_int (n : Z) : pystr := code_points (pretty n).



(** ** The script part [if __name__ == "__main__"] (lines 312-326)

    Either a line is printed and [sys.exit(code)] is called, or
    [ChatPeer(port)] is constructed and its [run] entered. *)
Inductive startup :=
| StartupExit (line : string) (code : Z)
| StartupPeer (p : Z).

Definition main (lib : PyLib) (argv : list pystr) : startup :=
  match argv with
  | [_; arg] =>
      match
        match py_int lib arg with
        | Some p => if (p <? 1024) || (65535 <? p) then None else Some p
        | None => None
        end
      with
      | Some p => StartupPeer p
      | None => StartupExit "Port must be a number between 1024 and 65535" 1
      end
  | _ => StartupExit "Usage: python chat.py <port>" 1
  end.

(** The peer after a [send_message] whose write failed: the call is
    stuck inside its [with] block. *)
Definition stuck_after_send : Sys :=
  state_of (send_message (IoErr "Broken pipe") 1 message_hi peer_with_one_connection).

(* ================================================================= *)
(** * Properties *)

(** Unfolds the monad and the socket API down to the state. *)
Ltac run :=
  repeat (unfold mbind, M_bind, bind, mret, M_ret, ret, get, modify, print, raise,
          with_lock, try_except, try_finally, catch_Exception,
          sock_send, sock_recv, sock_connect, sock_shutdown, sock_close,
          sock_accept, socket_new, sock_call, dict_getitem, dict_delitem,
          register, spawn_handler; simpl).

(** Settles a decidable closed proposition by evaluation. *)
Ltac decide_by_compute := apply (bool_decide_unpack _); vm_compute; exact I.

(** ** [send_message]: the length cap *)

Lemma length_check_over (message : pystr) :
  (100 < length message)%nat → (100 <? Z.of_nat (length message)) = true.
Proof. intros H. apply Z.ltb_lt. lia. Qed.

Lemma length_check_within (message : pystr) :
  (length message ≤ 100)%nat → (100 <? Z.of_nat (length message)) = false.
Proof. intros H. apply Z.ltb_ge. lia. Qed.

(** C4, as amended: a message of more than 100 characters is rejected,
    whatever the connection id, the table, the lock and the network: the
    call returns [False] and its only effect is the printed line, so the
    table is not consulted and nothing is written to a socket. *)
Theorem send_rejects_over_100_characters
    (write : io unit) (conn_id : Z) (message : pystr) (s : Sys) :
  (100 < length message)%nat →
  send_message write conn_id message s
  = Ret false (log (EvPrint "Message too long (max 100 characters)") s).
Proof.
  intros H. unfold send_message. rewrite length_check_over by done. reflexivity.
Qed.

Lemma send_rejects_over_100_characters_witness :
  (100 < length letter_a_101)%nat
  ∧ send_message (IoOk tt) 7 letter_a_101 (init 5000)
    = Ret false (log (EvPrint "Message too long (max 100 characters)") (init 5000)).
Proof.
  split; [vm_compute; lia |].
  apply (send_rejects_over_100_characters (IoOk tt) 7 letter_a_101 (init 5000)).
  vm_compute; lia.
Defined.

(** C4, as stated, fails: 51 characters U+00E9 encode to 102 bytes, and
    [send_message] writes them to connection 1 and returns [True]. *)
Lemma send_accepts_102_encoded_bytes : ¬ send_rejects_encoded_over_100.
Proof.
  intros H.
  destruct (H (IoOk tt) 1 e_acute_51
              (concat (replicate 51 [byte_of_Z 195; byte_of_Z 169]))
              peer_with_one_connection) as (s' & Hs' & _).
  - vm_compute. reflexivity.
  - vm_compute. lia.
  - vm_compute in Hs'. discriminate Hs'.
Qed.

(** C10: a message of exactly 100 characters passes the length check,
    whatever its UTF-8 encoding [data] (100 to 400 bytes): for an id that
    is not in the table the lookup is reached and reports it; for a
    registered id the bytes are written to its socket and [True] is
    returned. *)
Theorem send_accepts_100_characters
    (write : io unit) (conn_id : Z) (message : pystr) (s : Sys) :
  length message = 100%nat →
  lock s = false →
  (connections s !! conn_id = None →
   send_message write conn_id message s
   = Ret false (log (EvPrint ("Connection " +:+ pretty conn_id +:+ " does not exist")) s))
  ∧ (∀ c data,
       connections s !! conn_id = Some c →
       c_sock c ∉ closed s →
       str_encode message = Some data →
       write = IoOk tt →
       send_message write conn_id message s
       = Ret true (log (EvPrint ("Message sent to " +:+ pretty conn_id))
                     (log (EvSend (c_sock c) data) s))).
Proof.
  intros Hlen Hlock. unfold send_message.
  rewrite length_check_within by lia. split.
  - intros Hnone. run. rewrite Hlock. simpl. rewrite Hnone. simpl.
    destruct s; simpl in *; subst. reflexivity.
  - intros c data Hc Hopen Henc ->. run. rewrite Hlock; simpl. rewrite Hc; simpl.
    rewrite Hc, Henc. simpl. rewrite bool_decide_eq_false_2 by done. simpl.
    destruct s; simpl in *; subst; reflexivity.
Qed.

Lemma send_accepts_100_characters_witness :
  length e_acute_100 = 100%nat
  ∧ (∃ data, str_encode e_acute_100 = Some data ∧ length data = 200%nat
       ∧ send_message (IoOk tt) 1 e_acute_100 peer_with_one_connection
         = Ret true (log (EvPrint "Message sent to 1")
                       (log (EvSend 1%nat data) peer_with_one_connection)))
  ∧ send_message (IoOk tt) 2 e_acute_100 peer_with_one_connection
    = Ret false (log (EvPrint "Connection 2 does not exist") peer_with_one_connection).
Proof.
  split; [reflexivity |]. split.
  - exists (concat (replicate 100 [byte_of_Z 195; byte_of_Z 169])).
    split; [vm_compute; reflexivity |]. split; [reflexivity |].
    apply (proj2 (send_accepts_100_characters (IoOk tt) 1 e_acute_100
                    peer_with_one_connection eq_refl eq_refl)
             (Conn 1%nat "10.0.0.2" 6000)).
    + vm_compute. reflexivity.
    + decide_by_compute.
    + vm_compute. reflexivity.
    + reflexivity.
  - apply (proj1 (send_accepts_100_characters (IoOk tt) 2 e_acute_100
                    peer_with_one_connection eq_refl eq_refl)).
    vm_compute. reflexivity.
Defined.

(** ** [terminate_connection] *)

(** C7: for an id in the table, [terminate_connection] closes its
    socket, deletes the entry and returns [True]; called again on the
    same id it prints "Connection <id> does not exist", returns [False],
    makes no socket call and leaves the table as it was.  The two calls
    together close the socket once. *)
Theorem terminate_closes_and_removes_once (conn_id : Z) (c : conn) (s : Sys) :
  lock s = false →
  connections s !! conn_id = Some c →
  ∃ s1,
    terminate_connection conn_id s = Ret true s1
    ∧ connections s1 = delete conn_id (connections s)
    ∧ closed s1 = {[c_sock c]} ∪ closed s
    ∧ trace s1 = trace s ++
        [EvClose (c_sock c);
         EvPrint ("Connection " +:+ pretty conn_id +:+ " (" +:+ c_addr c +:+ ":"
                  +:+ pretty (c_port c) +:+ ") terminated")]
    ∧ terminate_connection conn_id s1
      = Ret false (log (EvPrint ("Connection " +:+ pretty conn_id +:+ " does not exist")) s1).
Proof.
  intros Hlock Hc. destruct c as [sock addr p].
  eexists. split.
  - unfold terminate_connection. run. rewrite Hlock. simpl. rewrite Hc. simpl.
    rewrite Hc. simpl. reflexivity.
  - simpl. repeat split.
    + by rewrite <- app_assoc.
    + unfold terminate_connection. run.
      rewrite lookup_delete_eq. simpl. reflexivity.
Qed.

Lemma terminate_closes_and_removes_once_witness :
  ∃ s1,
    terminate_connection 1 peer_with_one_connection = Ret true s1
    ∧ connections s1 = ∅
    ∧ closed s1 = {[1%nat]}
    ∧ events_since peer_with_one_connection s1
      = [EvClose 1%nat; EvPrint "Connection 1 (10.0.0.2:6000) terminated"]
    ∧ terminate_connection 1 s1
      = Ret false (log (EvPrint "Connection 1 does not exist") s1).
Proof.
  destruct (terminate_closes_and_removes_once 1 (Conn 1%nat "10.0.0.2" 6000)
              peer_with_one_connection eq_refl eq_refl)
    as (s1 & H1 & H2 & H3 & H4 & H5).
  exists s1. split; [exact H1 |]. split; [rewrite H2; reflexivity |].
  split; [rewrite H3; reflexivity |]. split; [| exact H5].
  unfold events_since. rewrite H4. reflexivity.
Defined.

(** ** The dict, read in insertion order *)

Lemma dict_keys_elem (m : gmap Z conn) (k : Z) : k ∈ dict_keys m ↔ is_Some (m !! k).
Proof.
  unfold dict_keys. rewrite merge_sort_Permutation, elem_of_elements.
  apply elem_of_dom.
Qed.

Lemma dict_keys_NoDup (m : gmap Z conn) : NoDup (dict_keys m).
Proof.
  unfold dict_keys. rewrite merge_sort_Permutation. apply NoDup_elements.
Qed.

Lemma dict_values_elem (m : gmap Z conn) (c : conn) :
  c ∈ dict_values m ↔ ∃ k, m !! k = Some c.
Proof.
  unfold dict_values. rewrite list_elem_of_omap. split.
  - intros (k & _ & Hk). eauto.
  - intros (k & Hk). exists k. split; [| done]. apply dict_keys_elem. eauto.
Qed.

Lemma duplicate_found (ip : string) (p : Z) (s : Sys) :
  existsb (is_duplicate ip p) (dict_values (connections s)) = true
  ↔ duplicate_connection ip p s.
Proof.
  unfold duplicate_connection. rewrite existsb_exists. split.
  - intros (c & Hin & Hd). apply list_elem_of_In, dict_values_elem in Hin as (k & Hk).
    unfold is_duplicate in Hd. apply andb_true_iff in Hd as [H1 H2].
    apply bool_decide_eq_true in H1, H2. eauto.
  - intros (k & c & Hk & H1 & H2). exists c. split.
    + apply list_elem_of_In, dict_values_elem. eauto.
    + unfold is_duplicate. rewrite !bool_decide_eq_true_2 by done. done.
Qed.

Lemma self_connection_found (net : DialNet) (ip : string) (p : Z) (s : Sys) :
  bool_decide (ip = my_ip_of (d_route net) s) && bool_decide (p = port s) = true
  ↔ self_connection net ip p s.
Proof.
  unfold self_connection. rewrite andb_true_iff, !bool_decide_eq_true. done.
Qed.

(** ** [connect_to_peer] *)

Lemma get_my_ip_run (route : io string) (s : Sys) :
  get_my_ip route s = Ret (my_ip_of route s) (probe s).
Proof.
  unfold get_my_ip, my_ip_of, probe. run.
  destruct (bool_decide (next_sock s ∈ closed s)); simpl; [reflexivity |].
  destruct route; reflexivity.
Qed.

Lemma events_since_log (s : Sys) (e : event) : events_since s (log e s) = [e].
Proof. unfold events_since. simpl. by rewrite drop_app_length. Qed.



Lemma connect_to_peer_self (lib : PyLib) net ip p s :
  inet_aton lib ip = true →
  self_connection net ip p s →
  connect_to_peer lib net ip p s
  = Ret false (log (EvPrint "Self-connection is not allowed") (probe s)).
Proof.
  intros H Hself. apply self_connection_found in Hself.
  unfold connect_to_peer. rewrite H. simpl.
  unfold mbind at 1, M_bind at 1, bind at 1. rewrite get_my_ip_run.
  run. rewrite Hself. reflexivity.
Qed.

Lemma connect_to_peer_duplicate (lib : PyLib) net ip p s :
  inet_aton lib ip = true →
  ¬ self_connection net ip p s →
  duplicate_connection ip p s →
  connect_to_peer lib net ip p s
  = Ret false (log (EvPrint "Duplicate connection is not allowed") (probe s)).
Proof.
  intros H Hself Hdup. apply duplicate_found in Hdup.
  rewrite <- self_connection_found in Hself. apply not_true_is_false in Hself.
  unfold connect_to_peer. rewrite H. simpl.
  unfold mbind at 1, M_bind at 1, bind at 1. rewrite get_my_ip_run.
  run. rewrite Hself. run. rewrite Hdup. reflexivity.
Qed.






(** ** [accept_connections] *)

Lemma int_of_bytes_run (lib : PyLib) (data : list byte) (s : Sys) :
  match handshake_port lib data with
  | Some n => int_of_bytes lib (take 1024 data) s = Ret n s
  | None => ∃ msg, int_of_bytes lib (take 1024 data) s = Raise (PyExc ValueError msg) s
  end.
Proof.
  unfold handshake_port, int_of_bytes.
  destruct (bytes_decode lib (take 1024 data)) as [text |]; [| by eexists].
  destruct (py_int lib text); [done | by eexists].
Qed.

(** The first turn of the loop is taken when the flag is set. *)
Lemma accept_connections_turn (lib : PyLib) (net : AcceptNet)
    (rest : list AcceptNet) (s : Sys) :
  running s = true →
  accept_connections lib (net :: rest) s
  = (accept_iteration lib net ;; accept_connections lib rest) s.
Proof.
  intros Hrun. simpl. unfold mbind at 1, M_bind at 1, bind at 1, get at 1.
  rewrite Hrun. reflexivity.
Qed.

(** C9: when an accepted connection sends a handshake that is not an
    integer, the turn of the loop ends without an exception leaving it:
    no entry is created, the counter is unchanged, nothing is sent on
    the accepted socket and no reader thread is started for it; an error
    line is printed and the loop goes on with its next turn. *)
Theorem bad_handshake_is_dropped
    (lib : PyLib) (net : AcceptNet) (addr : string) (data : list byte) (s : Sys) :
  running s = true →
  server_socket s ∉ closed s →
  a_accept net = IoOk addr →
  a_recv net = IoOk data →
  handshake_port lib data = None →
  ∃ s' msg,
    accept_iteration lib net s = Ret tt s'
    ∧ connections s' = connections s
    ∧ connection_counter s' = connection_counter s
    ∧ running s' = true
    ∧ events_since s s'
      = [EvAccept (server_socket s); EvRecv (next_sock s);
         EvPrint ("Error accepting connection: " +:+ msg)]
    ∧ ∀ rest, accept_connections lib (net :: rest) s
              = accept_connections lib rest s'.
Proof.
  intros Hrun Hsrv Hacc Hrecv Hport.
  assert (∃ s' msg,
    accept_iteration lib net s = Ret tt s'
    ∧ connections s' = connections s
    ∧ connection_counter s' = connection_counter s
    ∧ running s' = true
    ∧ trace s' = trace s ++ [EvAccept (server_socket s); EvRecv (next_sock s);
         EvPrint ("Error accepting connection: " +:+ msg)]) as (s' & msg & Hit & H).
  { unfold accept_iteration, listener_except, listener_accept, listener_handshake.
    run. rewrite Hacc, Hrecv. rewrite bool_decide_eq_false_2 by done. simpl.
    destruct (bool_decide (next_sock s ∈ closed s)); simpl.
    - rewrite Hrun. simpl. eexists _, _. split; [reflexivity |]. simpl.
      by rewrite <- !app_assoc.
    - pose proof (int_of_bytes_run lib data
        (log (EvRecv (next_sock s))
           (set_next_sock (S (next_sock s)) (log (EvAccept (server_socket s)) s))))
        as Hint.
      rewrite Hport in Hint. destruct Hint as (msg & Hint).
      rewrite Hint. simpl.
      rewrite Hrun. simpl. eexists _, _. split; [reflexivity |]. simpl.
      by rewrite <- !app_assoc. }
  destruct H as (Hc & Hn & Hr & Ht).
  exists s', msg. repeat split; try done.
  - unfold events_since. rewrite Ht. by rewrite drop_app_length.
  - intros rest. rewrite accept_connections_turn by done.
    unfold mbind, M_bind, bind. rewrite Hit. reflexivity.
Qed.

Lemma bad_handshake_is_dropped_witness :
  ∃ s' msg,
    accept_iteration ascii_lib inbound_garbage peer_with_one_connection = Ret tt s'
    ∧ connections s' = connections peer_with_one_connection
    ∧ connection_counter s' = 1
    ∧ running s' = true
    ∧ events_since peer_with_one_connection s'
      = [EvAccept 0%nat; EvRecv 2%nat;
         EvPrint ("Error accepting connection: " +:+ msg)]
    ∧ ∀ rest, accept_connections ascii_lib (inbound_garbage :: rest)
                peer_with_one_connection
              = accept_connections ascii_lib rest s'.
Proof.
  apply (bad_handshake_is_dropped ascii_lib inbound_garbage "10.0.0.9"
           (String.list_byte_of_string "hello") peer_with_one_connection).
  - reflexivity.
  - decide_by_compute.
  - reflexivity.
  - reflexivity.
  - vm_compute. reflexivity.
Defined.

(** ** [send_message]: a failed write *)

(** What [send_message] does for a registered id when the write fails:
    the [except] clause prints, then calls [handle_disconnect] while the
    lock is still held, and the call blocks there with the socket open
    and the entry in place. *)
Lemma send_failure_blocks (write : io unit) (conn_id : Z) (message : pystr)
    (c : conn) (data : list byte) (s : Sys) :
  lock s = false →
  (length message ≤ 100)%nat →
  connections s !! conn_id = Some c →
  c_sock c ∉ closed s →
  str_encode message = Some data →
  io_ok write = false →
  ∃ msg, send_message write conn_id message s
         = Hang (log (EvPrint ("Failed to send message: " +:+ msg))
                   (log (EvSend (c_sock c) data) (set_lock true s))).
Proof.
  intros Hlock Hlen Hc Hopen Henc Hw. unfold send_message.
  rewrite length_check_within by done. run. rewrite Hlock. simpl.
  rewrite Hc. simpl. rewrite Hc, Henc. simpl.
  rewrite bool_decide_eq_false_2 by done.
  destruct write as [[] | | msg]; [discriminate Hw | |]; simpl; by eexists.
Qed.

(** C2, at the failing input: connection 1 is registered and the write
    of "hi" fails with a broken pipe.  [send_message] neither returns
    [False] nor tears the connection down: it blocks with the lock held,
    the entry still in the table and the socket still open. *)
Theorem send_failure_blocks_at_broken_pipe :
  ∃ s', send_message (IoErr "Broken pipe") 1 message_hi peer_with_one_connection
        = Hang s'
        ∧ lock s' = true
        ∧ connections s' = connections peer_with_one_connection
        ∧ (connections s' !! 1 = Some (Conn 1%nat "10.0.0.2" 6000))
        ∧ (1%nat ∉ closed s')
        ∧ events_since peer_with_one_connection s'
          = [EvSend 1%nat (String.list_byte_of_string "hi");
             EvPrint "Failed to send message: Broken pipe"].
Proof.
  eexists. split; [vm_compute; reflexivity |].
  repeat split; try (vm_compute; reflexivity). decide_by_compute.
Qed.

(** ** [handle_shutdown] *)

(** The same attribute read on the module yields the constant; on a
    socket object, which is what the local name [socket] is bound to in
    [handle_shutdown], it raises. *)
Lemma SHUT_RDWR_of_module_and_of_socket (c : Sock) (s : Sys) :
  getattr_const ObjModuleSocket "SHUT_RDWR" s = Ret 2 s
  ∧ getattr_const (ObjSocket c) "SHUT_RDWR" s
    = Raise (PyExc AttributeError "'socket' object has no attribute 'SHUT_RDWR'") s.
Proof. split; reflexivity. Qed.

(** One turn of the [for] loop on a registered id: reading
    [socket.SHUT_RDWR] on the socket object raises before [shutdown] and
    [close] are reached, the [except] swallows it, and [del] removes the
    entry. *)
Lemma shutdown_one_run (down : Sock → io unit) (conn_id : Z)
    (local_socket : option Sock) (c : conn) (s : Sys) :
  connections s !! conn_id = Some c →
  shutdown_one down conn_id local_socket s
  = Ret (Some (c_sock c)) (set_connections (delete conn_id) s).
Proof.
  intros Hc. unfold shutdown_one. run. rewrite Hc. destruct c as [sock addr p].
  run. rewrite Hc. reflexivity.
Qed.

Lemma lookup_foldl_delete (ids : list Z) (m : gmap Z conn) (k : Z) :
  foldl (fun acc i => delete i acc) m ids !! k
  = if bool_decide (k ∈ ids) then None else m !! k.
Proof.
  revert m. induction ids as [| i ids IH]; intros m.
  - case_bool_decide as H; [by apply elem_of_nil in H | done].
  - cbn [foldl]. rewrite IH.
    destruct (decide (k = i)) as [-> | Hne].
    + rewrite lookup_delete_eq.
      rewrite (bool_decide_eq_true_2 (i ∈ i :: ids)) by apply list_elem_of_here.
      by case_bool_decide.
    + rewrite lookup_delete_ne by done.
      destruct (decide (k ∈ ids)) as [Hin | Hnin].
      * rewrite !bool_decide_eq_true_2; [done | by apply list_elem_of_further | done].
      * rewrite !bool_decide_eq_false_2; [done | | done].
        intros [? | ?]%elem_of_cons; done.
Qed.

Lemma shutdown_loop_run (down : Sock → io unit) (ids : list Z) :
  ∀ (local_socket : option Sock) (s : Sys),
    NoDup ids →
    (∀ k, k ∈ ids → is_Some (connections s !! k)) →
    ∃ local_socket',
      shutdown_loop down ids local_socket s
      = Ret local_socket'
          (set_connections (fun m => foldl (fun acc i => delete i acc) m ids) s).
Proof.
  induction ids as [| i ids IH]; intros local_socket s Hnd Hin; simpl.
  - exists local_socket. by destruct s.
  - apply NoDup_cons in Hnd as [Hi Hnd].
    destruct (Hin i) as [c Hc]; [apply list_elem_of_here |].
    unfold mbind, M_bind, bind. rewrite (shutdown_one_run _ _ _ c) by done.
    destruct (IH (Some (c_sock c)) (set_connections (delete i) s) Hnd)
      as (l' & Hl').
    + intros k Hk. simpl. rewrite lookup_delete_ne; [| by intros ->].
      apply Hin. by apply list_elem_of_further.
    + exists l'. rewrite Hl'. reflexivity.
Qed.

Lemma delete_all_keys (m : gmap Z conn) :
  foldl (fun acc i => delete i acc) m (dict_keys m) = ∅.
Proof.
  apply map_eq. intros k. rewrite lookup_foldl_delete, lookup_empty.
  case_bool_decide as Hk; [done |].
  rewrite dict_keys_elem in Hk. by apply eq_None_not_Some.
Qed.

(** What the teardown does from any state in which the lock is free:
    every entry is removed, the listening socket is closed, the call
    ends in [SystemExit(0)], and no socket other than the listening one
    is shut down or closed. *)
Lemma shutdown_rest_run (down : Sock → io unit) (s : Sys) :
  lock s = false →
  shutdown_rest down s = Raise (SystemExit 0) (drained s).
Proof.
  intros Hlock. unfold shutdown_rest.
  unfold mbind, M_bind, bind, with_lock, get. simpl. rewrite Hlock.
  destruct (shutdown_loop_run down (dict_keys (connections s)) None
              (set_lock true s)) as (l' & Hl').
  - apply dict_keys_NoDup.
  - intros k Hk. simpl. by apply dict_keys_elem.
  - simpl in Hl'. rewrite Hl'. simpl.
    destruct l' as [sock |]; run;
      unfold drained, log, add_closed, set_lock, set_connections;
      simpl; rewrite delete_all_keys, Hlock; reflexivity.
Qed.

Lemma handle_shutdown_run (down : Sock → io unit) (s : Sys) :
  lock s = false →
  handle_shutdown down s = Raise (SystemExit 0) (shut_down s).
Proof.
  intros Hlock. unfold handle_shutdown, shutdown_begin.
  unfold mbind, M_bind, bind, print, modify. simpl.
  by rewrite shutdown_rest_run.
Qed.

(** C1, at the failing input: with one live connection (socket 1),
    [handle_shutdown] empties the table, closes the listening socket
    (socket 0) and ends in [SystemExit(0)], but socket 1 is neither shut
    down nor closed, whatever a [shutdown] call would have answered. *)
Theorem shutdown_leaves_connection_socket_open :
  ∀ down, ∃ s',
    handle_shutdown down peer_with_one_connection = Raise (SystemExit 0) s'
    ∧ (connections peer_with_one_connection !! 1 = Some (Conn 1%nat "10.0.0.2" 6000))
    ∧ connections s' = ∅
    ∧ running s' = false
    ∧ closed s' = {[0%nat]}
    ∧ (1%nat ∉ closed s')
    ∧ events_since peer_with_one_connection s'
      = [EvPrint (nl +:+ "Shutting down..."); EvClose 0%nat].
Proof.
  intros down. exists (shut_down peer_with_one_connection).
  split; [by apply handle_shutdown_run |].
  repeat split; try (vm_compute; reflexivity). decide_by_compute.
Qed.

(** ** The listener and the running flag *)

(** The three steps of the listener, run with no other thread in
    between, are one turn of the loop of [accept_connections]. *)
Lemma listener_steps_are_one_turn (lib : PyLib) (net : AcceptNet) (s : Sys) :
  running s = true →
  let tested := listener_step lib net (Config s AtLoopHead) in
  let accepted := listener_step lib net tested in
  cfg_sys (match cfg_pc accepted with
           | InFlight _ _ => listener_step lib net accepted
           | _ => accepted
           end)
  = state_of (accept_iteration lib net s).
Proof.
  intros Hrun. unfold listener_step, accept_iteration, listener_except, listener_accept.
  simpl. rewrite Hrun. simpl.
  generalize (listener_handshake lib net). intros handshake.
  run.
  destruct (bool_decide (server_socket s ∈ closed s)); simpl;
    [by rewrite ?Hrun |].
  destruct (a_accept net) as [addr | | msg]; simpl; [| done | by rewrite ?Hrun].
  destruct (handshake (next_sock s) addr _) as [[] s' | e s' |];
    simpl; [done | | done].
  destruct e as [[] msg | code]; simpl; try done;
    destruct (running s'); done.
Qed.







(** ** What each method changes *)

Lemma handle_disconnect_cases (conn_id : Z) (s : Sys) :
  handle_disconnect conn_id s = Hang s
  ∨ ∃ s', handle_disconnect conn_id s = Ret tt s' ∧ removes conn_id s s'.
Proof.
  unfold handle_disconnect. run. destruct (lock s); [by left |]. simpl. right.
  destruct (connections s !! conn_id) as [[sock addr p] |] eqn:Hc; simpl.
  - rewrite Hc. simpl. eexists. split; [done |]. right. eexists. split; done.
  - eexists. split; [done |]. by left.
Qed.

(** Settles one call of [handle_disconnect] met in a goal about the
    state a method leaves. *)
Ltac disconnect_cases :=
  match goal with
  | |- removes _ _ (state_of ?t) =>
      match t with
      | context [handle_disconnect ?i ?X] =>
          let H := fresh "H" in
          destruct (handle_disconnect_cases i X) as [-> | (? & -> & H)];
          simpl; [by left | exact H]
      end
  end.

Lemma terminate_connection_effect (conn_id : Z) (s : Sys) :
  removes conn_id s (state_of (terminate_connection conn_id s)).
Proof.
  unfold terminate_connection. run. destruct (lock s); [by left |]. simpl.
  destruct (connections s !! conn_id) as [[sock addr p] |] eqn:Hc; simpl.
  - rewrite Hc. simpl. right. eexists. split; [done |]. reflexivity.
  - by left.
Qed.

Lemma send_message_effect (write : io unit) (conn_id : Z) (message : pystr) (s : Sys) :
  unchanged s (state_of (send_message write conn_id message s)).
Proof.
  unfold send_message. destruct (100 <? Z.of_nat (length message)); [done |].
  run. destruct (lock s); [done |]. simpl.
  destruct (connections s !! conn_id) as [c |] eqn:Hc; simpl; [| done].
  rewrite Hc. destruct (str_encode message); simpl; [| done].
  case_bool_decide; simpl; [done |].
  destruct write; done.
Qed.

Lemma list_connections_effect (s : Sys) :
  unchanged s (state_of (list_connections s)).
Proof.
  unfold unchanged, list_connections. run. case_bool_decide; [done |]. simpl.
  assert (core (log (EvPrint "id: IP address      Port No.") s) = core s) as <- by done.
  generalize (log (EvPrint "id: IP address      Port No.") s).
  induction (dict_items (connections s)) as [| [k c] l IH]; intros s0; simpl.
  - done.
  - run. by rewrite IH.
Qed.

Lemma shutdown_rest_effect (down : Sock → io unit) (s : Sys) :
  drains s (state_of (shutdown_rest down s)).
Proof.
  destruct (lock s) eqn:Hlock.
  - left. unfold shutdown_rest. unfold mbind, M_bind, bind, with_lock.
    by rewrite Hlock.
  - right. by rewrite shutdown_rest_run.
Qed.

Lemma reader_iteration_effect (lib : PyLib) (recv : io (list byte)) (conn_id : Z)
    (client_socket : Sock) (addr : string) (s : Sys) :
  removes conn_id s (state_of (reader_iteration lib recv conn_id client_socket addr s)).
Proof.
  unfold reader_iteration. run.
  case_bool_decide; simpl.
  { destruct (running s); simpl; [disconnect_cases | by left]. }
  destruct recv as [data | | msg]; simpl.
  - destruct (bytes_decode lib (take 1024 data)) as [text |]; simpl.
    + case_bool_decide; simpl; [disconnect_cases |].
      destruct (connections s !! conn_id); simpl; [by left |].
      destruct (running s); simpl; [disconnect_cases | by left].
    + destruct (running s); simpl; [disconnect_cases | by left].
  - by left.
  - destruct (running s); simpl; [disconnect_cases | by left].
Qed.

(** Case analysis on the innermost scrutinee of the goal. *)
Ltac split_match :=
  match goal with
  | |- context [match ?x with _ => _ end] =>
      lazymatch x with
      | context [match _ with _ => _ end] => fail
      | _ => destruct x eqn:?
      end
  end; simpl.

(** Closes a goal [dials ip s s'] whose [s'] is an explicit state. *)
Ltac dial_done :=
  first [ by left | by (right; left) | by (right; right; left)
        | by (right; right; right; eexists) ].

Lemma connect_to_peer_effect (lib : PyLib) (net : DialNet) (ip : string) (p : Z)
    (s : Sys) :
  dials ip s (state_of (connect_to_peer lib net ip p s)).
Proof.
  unfold connect_to_peer.
  destruct (inet_aton lib ip); simpl; [| dial_done].
  unfold mbind at 1, M_bind at 1, bind at 1. rewrite get_my_ip_run.
  unfold int_of_bytes. run.
  repeat split_match; dial_done.
Qed.
Lemma listener_accept_effect (net : AcceptNet) (s : Sys) :
  match listener_except None (ca ← listener_accept net; ret (Some ca)) s with
  | Ret (Some ca) s' => ca.1 = next_sock s ∧ core s' = core (alloc s)
  | Ret None s' => core s' = core s
  | Raise _ _ | Hang _ => False
  end.
Proof.
  unfold listener_except, listener_accept. run.
  case_bool_decide; simpl; [by destruct (running s) |].
  destruct (a_accept net); simpl; try done.
  by destruct (running s).
Qed.

Lemma listener_handshake_effect (lib : PyLib) (net : AcceptNet) (c : Sock)
    (addr : string) (s : Sys) :
  match listener_except tt (listener_handshake lib net c addr) s with
  | Ret _ s' | Hang s' => registers c addr s s'
  | Raise _ _ => False
  end.
Proof.
  unfold listener_except, listener_handshake, int_of_bytes. run.
  repeat split_match; first [by left | by (right; eexists)].
Qed.

(** ** The invariant is kept *)

Lemma core_fields (s s' : Sys) :
  core s' = core s →
  connections s' = connections s
  ∧ connection_counter s' = connection_counter s
  ∧ next_sock s' = next_sock s
  ∧ closed s' = closed s
  ∧ server_socket s' = server_socket s.
Proof. unfold core. intros [= H1 H2 H3 H4 H5]. done. Qed.

Lemma frame_core (s s1 s' : Sys) : core s' = core s1 → frame s s1 → frame s s'.
Proof.
  intros (E1 & E2 & E3 & E4 & E5)%core_fields [H1 H2 H3 H4 H5].
  constructor; rewrite ?E1, ?E2, ?E3, ?E4, ?E5; done.
Qed.

Lemma frame_refl (s : Sys) : frame s s.
Proof. constructor; try done; auto. Qed.

Lemma frame_probe (s : Sys) : frame s (probe s).
Proof.
  constructor; simpl; try done; try lia; [| auto].
  intros x [->%elem_of_singleton | Hx]%elem_of_union; [right; left; simpl; lia | by left].
Qed.

Lemma frame_alloc (s : Sys) : frame s (alloc s).
Proof. constructor; simpl; try done; try lia; auto. Qed.

Lemma frame_alloc_probe (s : Sys) : frame s (alloc (probe s)).
Proof.
  constructor; simpl; try done; try lia; [| auto].
  intros x [->%elem_of_singleton | Hx]%elem_of_union; [right; left; simpl; lia | by left].
Qed.

Lemma frame_dialled (ip : string) (p : Z) (s : Sys) :
  table_ok s →
  frame s (registered (S (next_sock s)) ip p (alloc (probe s))).
Proof.
  intros Hok. constructor; simpl; try done; try lia.
  - intros x [->%elem_of_singleton | Hx]%elem_of_union; [right; left; simpl; lia | by left].
  - intros conn_id e. rewrite lookup_insert. case_decide as Hid.
    + intros [= <-]. right. subst conn_id. simpl.
      split; [| split; [done | split; [done | split; [lia |]]]].
      * destruct (connections s !! (connection_counter s + 1)) as [c |] eqn:Hc;
          [| done].
        apply (ok_issued s Hok) in Hc. lia.
      * intros [Hx%elem_of_singleton | Hx]%elem_of_union; [lia |].
        apply (ok_closed_handed_out s Hok) in Hx. lia.
    + by left.
Qed.

Lemma frame_closed_and_removed (conn_id : Z) (c : conn) (s : Sys) :
  connections s !! conn_id = Some c →
  frame s (closed_and_removed conn_id c s).
Proof.
  intros Hc. constructor; simpl; try done.
  - intros x [->%elem_of_singleton | Hx]%elem_of_union; [| by left].
    right; right; right. exists conn_id, c. by rewrite lookup_delete_eq.
  - intros k e. rewrite lookup_delete. case_decide; [done | by left].
Qed.

Lemma frame_drained (s : Sys) : frame s (drained s).
Proof.
  constructor; simpl; try done.
  intros x [->%elem_of_singleton | Hx]%elem_of_union; [by right; right; left | by left].
Qed.

(** A framed step keeps the table well formed. *)
Lemma frame_table_ok (s s' : Sys) : table_ok s → frame s s' → table_ok s'.
Proof.
  intros Hok [F1 F2 F3 F4 F5].
  assert (∀ conn_id e x, connections s' !! conn_id = Some e → c_sock e = x →
            x ∈ closed s' → False) as Hopen.
  { intros k e x He <- Hx.
    destruct (F5 k e He) as [Hold | (_ & _ & _ & _ & Hnew)]; [| done].
    destruct (F4 _ Hx) as [Hcl | [Hfresh | [Hsrv | (k' & c' & Hc' & Hs & Hgone)]]].
    - by apply (ok_open s Hok k e).
    - apply (ok_handed_out s Hok) in Hold. lia.
    - by apply (ok_not_listening s Hok k e).
    - assert (k = k') as <- by (by eapply (ok_owned s Hok)). congruence. }
  constructor.
  - intros k e He Hx. by eapply Hopen.
  - intros k e He. destruct (F5 k e He) as [Hold | (_ & _ & _ & Hnew & _)]; [| lia].
    apply (ok_handed_out s Hok) in Hold. lia.
  - intros k e He. rewrite F3.
    destruct (F5 k e He) as [Hold | (_ & _ & _ & Hnew & _)].
    + by apply (ok_not_listening s Hok k e).
    + pose proof (ok_listening_handed_out s Hok). lia.
  - intros k e He. pose proof (ok_counter s Hok).
    destruct (F5 k e He) as [Hold | (_ & -> & Hnew & _)]; [| lia].
    apply (ok_issued s Hok) in Hold. lia.
  - intros k1 k2 e1 e2 H1 H2 Heq.
    destruct (F5 k1 e1 H1) as [Ho1 | (_ & -> & _ & Hn1 & _)],
             (F5 k2 e2 H2) as [Ho2 | (_ & -> & _ & Hn2 & _)]; try done.
    + by eapply (ok_owned s Hok).
    + apply (ok_handed_out s Hok) in Ho1. lia.
    + apply (ok_handed_out s Hok) in Ho2. lia.
  - intros x Hx.
    destruct (F4 _ Hx) as [Hcl | [Hfresh | [-> | (k' & c' & Hc' & <- & _)]]].
    + apply (ok_closed_handed_out s Hok) in Hcl. lia.
    + lia.
    + pose proof (ok_listening_handed_out s Hok). lia.
    + apply (ok_handed_out s Hok) in Hc'. lia.
  - rewrite F3. pose proof (ok_listening_handed_out s Hok). lia.
  - pose proof (ok_counter s Hok). lia.
Qed.

(** A framed step changes the table as [evolves] says. *)
Lemma frame_evolves (s s' : Sys) : table_ok s → frame s s' → evolves s s'.
Proof.
  intros Hok [F1 F2 F3 F4 F5]. constructor; [done | |].
  - intros k e He. destruct (F5 k e He) as [Hold | (H1 & H2 & H3 & _)]; auto.
  - intros k c Hc Hx.
    destruct (connections s' !! k) as [e |] eqn:He; [exfalso | done].
    destruct (F5 k e He) as [Hold | (Hnone & _)]; [| congruence].
    assert (e = c) as -> by congruence.
    destruct (F4 _ Hx) as [Hcl | [Hfresh | [Hsrv | (k' & c' & Hc' & Hs & Hgone)]]].
    + by apply (ok_open s Hok k c).
    + apply (ok_handed_out s Hok) in Hc. lia.
    + by apply (ok_not_listening s Hok k c).
    + assert (k = k') as <- by (by eapply (ok_owned s Hok)). congruence.
Qed.

(** A framed step of another thread leaves the listener's socket in
    flight open and out of the table. *)
Lemma frame_in_flight (s s' : Sys) (pc : listener_pc) :
  table_ok s → frame s s' →
  in_flight_ok (Config s pc) → in_flight_ok (Config s' pc).
Proof.
  intros Hok [F1 F2 F3 F4 F5]. unfold in_flight_ok. simpl.
  destruct pc as [| | c addr |]; try done.
  intros (H1 & H2 & H3 & H4). split; [lia |]. split; [| split; [congruence |]].
  - intros Hx.
    destruct (F4 _ Hx) as [Hcl | [Hfresh | [Hsrv | (k' & c' & Hc' & Hs & _)]]];
      [done | lia | done | by eapply H4].
  - intros k e He. destruct (F5 k e He) as [Hold | (_ & _ & _ & Hnew & _)]; [| lia].
    by eapply H4.
Qed.

(** The listener's registration of the socket it holds. *)
Lemma registered_table_ok (c : Sock) (addr : string) (p : Z) (s : Sys) :
  table_ok s → in_flight_ok (Config s (InFlight c addr)) →
  table_ok (registered c addr p s).
Proof.
  intros Hok (H1 & H2 & H3 & H4). simpl in *.
  assert (connections s !! (connection_counter s + 1) = None) as Hnew.
  { destruct (connections s !! (connection_counter s + 1)) as [e |] eqn:He; [| done].
    apply (ok_issued s Hok) in He. lia. }
  constructor; simpl.
  - intros k e. rewrite lookup_insert. case_decide.
    + by intros [= <-].
    + apply (ok_open s Hok).
  - intros k e. rewrite lookup_insert. case_decide.
    + by intros [= <-].
    + apply (ok_handed_out s Hok).
  - intros k e. rewrite lookup_insert. case_decide.
    + by intros [= <-].
    + apply (ok_not_listening s Hok).
  - intros k e. pose proof (ok_counter s Hok).
    rewrite lookup_insert. case_decide.
    + intros _. lia.
    + intros He. apply (ok_issued s Hok) in He. lia.
  - intros k1 k2 e1 e2. rewrite !lookup_insert. repeat case_decide; try congruence.
    + intros [= <-] He Heq. simpl in Heq. symmetry in Heq. by apply H4 in He.
    + intros He [= <-] Heq. simpl in Heq. by apply H4 in He.
    + apply (ok_owned s Hok).
  - apply (ok_closed_handed_out s Hok).
  - apply (ok_listening_handed_out s Hok).
  - pose proof (ok_counter s Hok). lia.
Qed.

Lemma registered_evolves (c : Sock) (addr : string) (p : Z) (s : Sys) :
  table_ok s → evolves s (registered c addr p s).
Proof.
  intros Hok. constructor; simpl.
  - lia.
  - intros k e. rewrite lookup_insert. case_decide as Hk; [| by left].
    intros _. right. subst k.
    destruct (connections s !! (connection_counter s + 1)) as [e' |] eqn:He;
      [| done].
    apply (ok_issued s Hok) in He. lia.
  - intros k e He Hx. by apply (ok_open s Hok) in He.
Qed.

Lemma evolves_core (s s1 s' : Sys) : core s' = core s1 → evolves s s1 → evolves s s'.
Proof.
  intros (E1 & E2 & E3 & E4 & E5)%core_fields [H1 H2 H3].
  constructor; rewrite ?E1, ?E2, ?E4; done.
Qed.

Lemma table_ok_core (s s' : Sys) : core s' = core s → table_ok s → table_ok s'.
Proof.
  intros (E1 & E2 & E3 & E4 & E5)%core_fields []. 
  constructor; rewrite ?E1, ?E2, ?E3, ?E4, ?E5; done.
Qed.

Lemma action_frame (lib : PyLib) (a : action) (s : Sys) :
  table_ok s → frame s (run_action lib a s).
Proof.
  intros Hok. destruct a as [net ip p | k | write k message | | | down | recv k c addr];
    simpl.
  - destruct (connect_to_peer_effect lib net ip p s) as [H | [H | [H | (tp & H)]]];
      (eapply frame_core; [exact H |]);
      eauto using frame_refl, frame_probe, frame_alloc_probe, frame_dialled.
  - destruct (terminate_connection_effect k s) as [H | (c & Hc & H)];
      (eapply frame_core; [exact H |]);
      eauto using frame_refl, frame_closed_and_removed.
  - eapply frame_core; [apply send_message_effect | apply frame_refl].
  - eapply frame_core; [apply list_connections_effect | apply frame_refl].
  - eapply (frame_core s s); [reflexivity | apply frame_refl].
  - destruct (shutdown_rest_effect down s) as [H | H];
      (eapply frame_core; [exact H |]); eauto using frame_refl, frame_drained.
  - destruct (reader_iteration_effect lib recv k c addr s) as [H | (e & He & H)];
      (eapply frame_core; [exact H |]);
      eauto using frame_refl, frame_closed_and_removed.
Qed.

Lemma listener_step_ok (lib : PyLib) (net : AcceptNet) (cfg : config) :
  process_ok cfg →
  process_ok (listener_step lib net cfg)
  ∧ evolves (cfg_sys cfg) (cfg_sys (listener_step lib net cfg)).
Proof.
  destruct cfg as [s pc]. intros [Hok Hfl]. simpl in *.
  assert (evolves s s) as Hrefl by (apply frame_evolves; [done | apply frame_refl]).
  unfold listener_step. simpl. destruct pc as [| | c addr |].
  - split; [| done]. split; [done |]. unfold in_flight_ok. simpl.
    by destruct (running s).
  - pose proof (listener_accept_effect net s) as H.
    destruct (listener_except None _ s) as [[[c addr] |] s' | |]; simpl in *;
      try done.
    + destruct H as [-> H].
      assert (frame s s') as Hfr by (eapply frame_core; [exact H | apply frame_alloc]).
      split; [| by apply frame_evolves].
      split; [by eapply frame_table_ok |].
      apply core_fields in H as (E1 & E2 & E3 & E4 & E5).
      unfold in_flight_ok. simpl. rewrite E1, E3, E4, E5. simpl.
      split; [lia |]. split; [| split].
      * intros Hx. apply (ok_closed_handed_out s Hok) in Hx. lia.
      * pose proof (ok_listening_handed_out s Hok). lia.
      * intros k e He. apply (ok_handed_out s Hok) in He. lia.
    + split; [split; [by eapply table_ok_core | done] |].
      by eapply evolves_core.
  - pose proof (listener_handshake_effect lib net c addr s) as H.
    assert (∀ s', registers c addr s s' → table_ok s' ∧ evolves s s') as Hreg.
    { intros s' [H' | (p & H')].
      - split; [by eapply table_ok_core | by eapply evolves_core].
      - split.
        + eapply table_ok_core; [exact H' |]. by apply registered_table_ok.
        + eapply evolves_core; [exact H' |]. by apply registered_evolves. }
    destruct (listener_except tt _ s) as [[] s' | |]; simpl in *; try done;
      destruct (Hreg _ H); done.
  - done.
Qed.

Lemma step_ok (lib : PyLib) (cfg cfg' : config) :
  process_ok cfg → step lib cfg cfg' →
  process_ok cfg' ∧ evolves (cfg_sys cfg) (cfg_sys cfg').
Proof.
  intros Hok Hstep. destruct Hstep as [net cfg | a cfg].
  - by apply listener_step_ok.
  - destruct Hok as [Hok Hfl]. destruct cfg as [s pc]. simpl in *.
    pose proof (action_frame lib a s Hok) as Hfr.
    split; [split |]; simpl.
    + by eapply frame_table_ok.
    + by eapply frame_in_flight.
    + by apply frame_evolves.
Qed.

Lemma start_ok (p : Z) : process_ok (start p).
Proof.
  split; [| done]. constructor; simpl; try done; lia.
Qed.

Lemma steps_ok (lib : PyLib) (cfg cfg' : config) :
  process_ok cfg → rtc (step lib) cfg cfg' → process_ok cfg'.
Proof.
  intros Hok Hsteps. induction Hsteps as [| cfg cfg1 cfg' Hstep _ IH]; [done |].
  apply IH. by apply (step_ok lib cfg cfg1).
Qed.

Lemma reachable_ok (lib : PyLib) (cfg : config) : reachable lib cfg → process_ok cfg.
Proof. intros (p & Hp). eapply steps_ok; [apply start_ok | exact Hp]. Qed.



Lemma peer_with_one_connection_reachable :
  reachable ascii_lib (Config peer_with_one_connection AtLoopHead).
Proof.
  exists 5000.
  eapply rtc_l; [apply (step_listener ascii_lib inbound_ok) |].
  eapply rtc_l; [apply (step_listener ascii_lib inbound_ok) |].
  eapply rtc_l; [apply (step_listener ascii_lib inbound_ok) |].
  apply rtc_refl.
Defined.


(* ================================================================= *)
(** * Further properties of the methods *)

Lemma events_since_app (s s' : Sys) (evs : list event) :
  trace s' = trace s ++ evs → events_since s s' = evs.
Proof. intros H. unfold events_since. rewrite H. apply drop_app_length. Qed.

(** ** [handle_shutdown] *)

(** X1: from any table, with the lock free, [handle_shutdown] ends in
    [SystemExit(0)] with the flag cleared, the table empty, the lock
    released and the listening socket closed.  It makes no [shutdown]
    call and closes no other socket: its only socket call is the [close]
    of the listening socket, whatever the network would answer. *)
Theorem shutdown_empties_table_and_exits (down : Sock → io unit) (s : Sys) :
  lock s = false →
  ∃ s', handle_shutdown down s = Raise (SystemExit 0) s'
        ∧ connections s' = ∅
        ∧ running s' = false
        ∧ lock s' = false
        ∧ closed s' = {[server_socket s]} ∪ closed s
        ∧ connection_counter s' = connection_counter s
        ∧ events_since s s'
          = [EvPrint (nl +:+ "Shutting down..."); EvClose (server_socket s)].
Proof.
  intros Hlock. exists (shut_down s). split; [by apply handle_shutdown_run |].
  repeat split; try done.
  apply events_since_app. simpl. by rewrite <- app_assoc.
Qed.

Lemma shutdown_empties_table_and_exits_witness :
  ∃ s', handle_shutdown shutdown_refused peer_with_one_connection
        = Raise (SystemExit 0) s'
        ∧ connections s' = ∅
        ∧ running s' = false
        ∧ lock s' = false
        ∧ closed s' = {[0%nat]} ∪ ∅
        ∧ connection_counter s' = 1
        ∧ events_since peer_with_one_connection s'
          = [EvPrint (nl +:+ "Shutting down..."); EvClose 0%nat].
Proof.
  exact (shutdown_empties_table_and_exits shutdown_refused
           peer_with_one_connection eq_refl).
Defined.

(** X2: [handle_shutdown] can be called again after it ran: the second
    call also ends in [SystemExit(0)] and nothing else, the table stays
    empty, and the set of closed sockets does not grow. *)
Theorem shutdown_twice_is_harmless (down1 down2 : Sock → io unit) (s : Sys) :
  lock s = false →
  ∃ s1 s2,
    handle_shutdown down1 s = Raise (SystemExit 0) s1
    ∧ handle_shutdown down2 s1 = Raise (SystemExit 0) s2
    ∧ connections s2 = ∅
    ∧ closed s2 = closed s1
    ∧ running s2 = false
    ∧ events_since s1 s2
      = [EvPrint (nl +:+ "Shutting down..."); EvClose (server_socket s)].
Proof.
  intros Hlock. exists (shut_down s), (shut_down (shut_down s)).
  split; [by apply handle_shutdown_run |].
  split; [by apply handle_shutdown_run |].
  repeat split; try done.
  - simpl. by rewrite (assoc_L (∪)), (idemp_L (∪)).
  - apply events_since_app. simpl. by rewrite <- !app_assoc.
Qed.

Lemma shutdown_twice_is_harmless_witness :
  ∃ s1 s2,
    handle_shutdown shutdown_refused peer_with_one_connection
    = Raise (SystemExit 0) s1
    ∧ handle_shutdown shutdown_refused s1 = Raise (SystemExit 0) s2
    ∧ connections s2 = ∅
    ∧ closed s2 = closed s1
    ∧ running s2 = false
    ∧ events_since s1 s2
      = [EvPrint (nl +:+ "Shutting down..."); EvClose 0%nat].
Proof.
  exact (shutdown_twice_is_harmless shutdown_refused shutdown_refused
           peer_with_one_connection eq_refl).
Defined.

(** ** [send_message] *)

(** X3: whatever the id, the message and the answer of the network,
    [send_message] leaves the table, the id counter and the set of
    closed sockets as they were: no path of it, the failed write
    included, removes an entry or closes a socket. *)
Theorem send_never_touches_table
    (write : io unit) (conn_id : Z) (message : pystr) (s : Sys) :
  connections (state_of (send_message write conn_id message s)) = connections s
  ∧ connection_counter (state_of (send_message write conn_id message s))
    = connection_counter s
  ∧ closed (state_of (send_message write conn_id message s)) = closed s.
Proof.
  destruct (core_fields _ _ (send_message_effect write conn_id message s))
    as (H1 & H2 & _ & H4 & _).
  done.
Qed.

(** X4: [send_message] returns [True] only when the message has at most
    100 characters, the id is in the table, the message encodes, and the
    write on the socket of that entry succeeded; the call then made that
    one write and printed the confirmation, and nothing else. *)
Theorem send_true_means_written
    (write : io unit) (conn_id : Z) (message : pystr) (s s' : Sys) :
  send_message write conn_id message s = Ret true s' →
  (length message ≤ 100)%nat
  ∧ ∃ c data,
      connections s !! conn_id = Some c
      ∧ str_encode message = Some data
      ∧ write = IoOk tt
      ∧ events_since s s'
        = [EvSend (c_sock c) data; EvPrint ("Message sent to " +:+ pretty conn_id)]
      ∧ core s' = core s.
Proof.
  unfold send_message. destruct (100 <? Z.of_nat (length message)) eqn:Hlen;
    [discriminate |].
  apply Z.ltb_ge in Hlen. intros H. split; [lia |]. revert H. run.
  destruct (lock s) eqn:Hlock; [discriminate |]. simpl.
  destruct (connections s !! conn_id) as [c |] eqn:Hc; simpl; [| discriminate].
  rewrite Hc. destruct (str_encode message) as [data |]; simpl; [| discriminate].
  case_bool_decide; simpl; [discriminate |].
  destruct write as [[] | |]; simpl; [| discriminate ..].
  intros [= <-]. exists c, data. repeat split; try done.
  apply events_since_app. simpl. by rewrite <- app_assoc.
Qed.

Lemma send_true_means_written_witness :
  (length message_hi ≤ 100)%nat
  ∧ ∃ c data,
      connections peer_with_one_connection !! 1 = Some c
      ∧ str_encode message_hi = Some data
      ∧ IoOk tt = IoOk tt
      ∧ events_since peer_with_one_connection
          (log (EvPrint "Message sent to 1")
             (log (EvSend 1%nat (String.list_byte_of_string "hi"))
                peer_with_one_connection))
        = [EvSend (c_sock c) data; EvPrint ("Message sent to " +:+ pretty 1)]
      ∧ core (log (EvPrint "Message sent to 1")
                (log (EvSend 1%nat (String.list_byte_of_string "hi"))
                   peer_with_one_connection))
        = core peer_with_one_connection.
Proof.
  apply (send_true_means_written (IoOk tt) 1 message_hi peer_with_one_connection).
  vm_compute. reflexivity.
Defined.

(** X5: for every registered id whose socket is open and every message
    of at most 100 characters that encodes, a write that fails (error or
    timeout) blocks [send_message] for ever: the [except] clause prints
    and calls [handle_disconnect] with the lock still held.  The lock
    stays taken, the entry stays in the table and its socket stays
    open. *)
Theorem failed_write_blocks_send
    (write : io unit) (conn_id : Z) (message : pystr) (c : conn)
    (data : list byte) (s : Sys) :
  lock s = false →
  (length message ≤ 100)%nat →
  connections s !! conn_id = Some c →
  c_sock c ∉ closed s →
  str_encode message = Some data →
  io_ok write = false →
  ∃ s' msg,
    send_message write conn_id message s = Hang s'
    ∧ lock s' = true
    ∧ connections s' = connections s
    ∧ closed s' = closed s
    ∧ events_since s s'
      = [EvSend (c_sock c) data; EvPrint ("Failed to send message: " +:+ msg)].
Proof.
  intros Hlock Hlen Hc Hopen Henc Hw.
  destruct (send_failure_blocks write conn_id message c data s) as (msg & H);
    try done.
  eexists _, msg. split; [exact H |]. repeat split; try done.
  apply events_since_app. simpl. by rewrite <- app_assoc.
Qed.

Lemma failed_write_blocks_send_witness :
  ∃ s' msg,
    send_message IoTimeout 1 message_hi peer_with_one_connection = Hang s'
    ∧ lock s' = true
    ∧ connections s' = connections peer_with_one_connection
    ∧ closed s' = closed peer_with_one_connection
    ∧ events_since peer_with_one_connection s'
      = [EvSend 1%nat (String.list_byte_of_string "hi");
         EvPrint ("Failed to send message: " +:+ msg)].
Proof.
  apply (failed_write_blocks_send IoTimeout 1 message_hi
           (Conn 1%nat "10.0.0.2" 6000) (String.list_byte_of_string "hi")
           peer_with_one_connection); try reflexivity.
  - vm_compute. lia.
  - decide_by_compute.
Defined.

(** ** [connect_to_peer] and [accept_connections]: the handshake *)

Lemma int_of_bytes_ok (lib : PyLib) (data : list byte) (p : Z) (s : Sys) :
  handshake_port lib data = Some p →
  int_of_bytes lib (take 1024 data) s = Ret p s.
Proof.
  intros H. pose proof (int_of_bytes_run lib data s) as Hrun. by rewrite H in Hrun.
Qed.

(** A dial that passes the three checks and meets a network that
    answers. *)
Lemma connect_to_peer_registers
    (lib : PyLib) (net : DialNet) (ip : string) (p : Z) (data : list byte)
    (their_port : Z) (s : Sys) :
  inet_aton lib ip = true →
  ¬ self_connection net ip p s →
  ¬ duplicate_connection ip p s →
  lock s = false →
  S (next_sock s) ∉ closed s →
  d_connect net = IoOk tt →
  d_send net = IoOk tt →
  d_recv net = IoOk data →
  handshake_port lib data = Some their_port →
  ∃ s', connect_to_peer lib net ip p s = Ret true s'
        ∧ connections s'
          = <[connection_counter s + 1 := Conn (S (next_sock s)) ip their_port]>
              (connections s)
        ∧ connection_counter s' = connection_counter s + 1
        ∧ lock s' = false
        ∧ trace s'
          = trace s ++
            [EvSocket (next_sock s) SOCK_DGRAM;
             EvConnect (next_sock s) "10.255.255.255" 1;
             EvClose (next_sock s);
             EvSocket (S (next_sock s)) SOCK_STREAM;
             EvConnect (S (next_sock s)) ip p;
             EvSend (S (next_sock s)) (int_encode (port s));
             EvRecv (S (next_sock s));
             EvSpawn (connection_counter s + 1) (S (next_sock s)) ip;
             EvPrint ("Connected to " +:+ ip +:+ ":" +:+ pretty p)].
Proof.
  intros Haton Hself Hdup Hlock Hfresh Hconn Hsend Hrecv Hport.
  rewrite <- self_connection_found in Hself. apply not_true_is_false in Hself.
  rewrite <- duplicate_found in Hdup. apply not_true_is_false in Hdup.
  assert (S (next_sock s) ∉ {[next_sock s]} ∪ closed s) as Hopen.
  { intros [?%elem_of_singleton | ?]%elem_of_union; [lia | done]. }
  unfold connect_to_peer. rewrite Haton. simpl.
  unfold mbind at 1, M_bind at 1, bind at 1. rewrite get_my_ip_run.
  run. rewrite Hself. run. rewrite Hdup. run.
  rewrite Hconn, Hsend, Hrecv. rewrite !bool_decide_eq_false_2 by done. simpl.
  rewrite (int_of_bytes_ok lib data their_port) by done. simpl.
  rewrite Hlock. simpl.
  eexists. split; [reflexivity |]. repeat split; try done.
  simpl. by rewrite <- !app_assoc.
Qed.

(** X6: a dial that passes the three checks and meets a network that
    answers creates a TCP socket, connects, sends its own listening port
    and then reads the peer's; it stores the peer under the next id with
    the dialled address and the port the peer advertised (not the port
    that was dialled), starts a reader thread for that id, and returns
    [True]. *)
Theorem dial_registers_advertised_port
    (lib : PyLib) (net : DialNet) (ip : string) (p : Z) (data : list byte)
    (their_port : Z) (s : Sys) :
  inet_aton lib ip = true →
  ¬ self_connection net ip p s →
  ¬ duplicate_connection ip p s →
  lock s = false →
  S (next_sock s) ∉ closed s →
  d_connect net = IoOk tt →
  d_send net = IoOk tt →
  d_recv net = IoOk data →
  handshake_port lib data = Some their_port →
  ∃ s', connect_to_peer lib net ip p s = Ret true s'
        ∧ connections s'
          = <[connection_counter s + 1 := Conn (S (next_sock s)) ip their_port]>
              (connections s)
        ∧ connection_counter s' = connection_counter s + 1
        ∧ lock s' = false
        ∧ events_since s s'
          = [EvSocket (next_sock s) SOCK_DGRAM;
             EvConnect (next_sock s) "10.255.255.255" 1;
             EvClose (next_sock s);
             EvSocket (S (next_sock s)) SOCK_STREAM;
             EvConnect (S (next_sock s)) ip p;
             EvSend (S (next_sock s)) (int_encode (port s));
             EvRecv (S (next_sock s));
             EvSpawn (connection_counter s + 1) (S (next_sock s)) ip;
             EvPrint ("Connected to " +:+ ip +:+ ":" +:+ pretty p)].
Proof.
  intros Haton Hself Hdup Hlock Hfresh Hconn Hsend Hrecv Hport.
  destruct (connect_to_peer_registers lib net ip p data their_port s)
    as (s' & H & H1 & H2 & H3 & H4); try done.
  exists s'. repeat split; try done. by apply events_since_app.
Qed.

Lemma dial_registers_advertised_port_witness :
  ∃ s', connect_to_peer ascii_lib dial_ok "10.0.0.3" 7001 peer_with_one_connection
        = Ret true s'
        ∧ connections s'
          = <[2 := Conn 3%nat "10.0.0.3" 7000]> (connections peer_with_one_connection)
        ∧ connection_counter s' = 2
        ∧ lock s' = false
        ∧ events_since peer_with_one_connection s'
          = [EvSocket 2%nat SOCK_DGRAM;
             EvConnect 2%nat "10.255.255.255" 1;
             EvClose 2%nat;
             EvSocket 3%nat SOCK_STREAM;
             EvConnect 3%nat "10.0.0.3" 7001;
             EvSend 3%nat (int_encode 5000);
             EvRecv 3%nat;
             EvSpawn 2 3%nat "10.0.0.3";
             EvPrint ("Connected to " +:+ "10.0.0.3" +:+ ":" +:+ pretty 7001)].
Proof.
  apply (dial_registers_advertised_port ascii_lib dial_ok "10.0.0.3" 7001
           (int_encode 7000) 7000 peer_with_one_connection); try reflexivity.
  - intros [H _]. vm_compute in H. discriminate H.
  - intros (k & c & Hc & Ha & Hp).
    assert (existsb (is_duplicate "10.0.0.3" 7001)
              (dict_values (connections peer_with_one_connection)) = true) as E.
    { apply duplicate_found. by exists k, c. }
    vm_compute in E. discriminate E.
  - decide_by_compute.
Defined.

(** One turn of the listener's loop for a well-formed inbound
    connection. *)
Lemma accept_iteration_registers (lib : PyLib) (net : AcceptNet) (addr : string)
    (data : list byte) (p : Z) (s : Sys) :
  running s = true →
  lock s = false →
  server_socket s ∉ closed s →
  next_sock s ∉ closed s →
  a_accept net = IoOk addr →
  a_recv net = IoOk data →
  handshake_port lib data = Some p →
  a_send net = IoOk tt →
  ∃ s', accept_iteration lib net s = Ret tt s'
        ∧ connections s'
          = <[connection_counter s + 1 := Conn (next_sock s) addr p]> (connections s)
        ∧ connection_counter s' = connection_counter s + 1
        ∧ next_sock s' = S (next_sock s)
        ∧ closed s' = closed s
        ∧ lock s' = false
        ∧ running s' = running s
        ∧ server_socket s' = server_socket s
        ∧ port s' = port s
        ∧ trace s'
          = trace s ++
            [EvAccept (server_socket s);
             EvRecv (next_sock s);
             EvSend (next_sock s) (int_encode (port s));
             EvPrint (nl +:+ "New connection from " +:+ addr +:+ ":" +:+ pretty p);
             EvPrint ">> ";
             EvSpawn (connection_counter s + 1) (next_sock s) addr].
Proof.
  intros Hrun Hlock Hsrv Hfresh Hacc Hrecv Hport Hsend.
  unfold accept_iteration, listener_except, listener_accept, listener_handshake.
  run. rewrite Hacc, Hrecv. rewrite !bool_decide_eq_false_2 by done. simpl.
  rewrite (int_of_bytes_ok lib data p) by done. simpl.
  rewrite Hsend. rewrite !bool_decide_eq_false_2 by done. simpl.
  rewrite Hlock. simpl. eexists. split; [reflexivity |]. simpl.
  repeat split. by rewrite <- !app_assoc.
Qed.

(** X7: for an inbound connection whose handshake is well formed, one
    turn of the listener's loop reads the peer's port first and then
    sends its own, stores the accepted socket under the next id with the
    peer's address and advertised port, prints the status line and the
    prompt, and starts a reader thread for that id. *)
Theorem accepted_connection_is_registered
    (lib : PyLib) (net : AcceptNet) (addr : string) (data : list byte)
    (p : Z) (s : Sys) :
  running s = true →
  lock s = false →
  server_socket s ∉ closed s →
  next_sock s ∉ closed s →
  a_accept net = IoOk addr →
  a_recv net = IoOk data →
  handshake_port lib data = Some p →
  a_send net = IoOk tt →
  ∃ s', accept_iteration lib net s = Ret tt s'
        ∧ connections s'
          = <[connection_counter s + 1 := Conn (next_sock s) addr p]> (connections s)
        ∧ connection_counter s' = connection_counter s + 1
        ∧ closed s' = closed s
        ∧ lock s' = false
        ∧ events_since s s'
          = [EvAccept (server_socket s);
             EvRecv (next_sock s);
             EvSend (next_sock s) (int_encode (port s));
             EvPrint (nl +:+ "New connection from " +:+ addr +:+ ":" +:+ pretty p);
             EvPrint ">> ";
             EvSpawn (connection_counter s + 1) (next_sock s) addr].
Proof.
  intros Hrun Hlock Hsrv Hfresh Hacc Hrecv Hport Hsend.
  destruct (accept_iteration_registers lib net addr data p s)
    as (s' & H & H1 & H2 & _ & H4 & H5 & _ & _ & _ & H9); try done.
  exists s'. repeat split; try done. by apply events_since_app.
Qed.

Lemma accepted_connection_is_registered_witness :
  ∃ s', accept_iteration ascii_lib inbound_ok_2 peer_with_one_connection = Ret tt s'
        ∧ connections s'
          = <[2 := Conn 2%nat "10.0.0.4" 6001]> (connections peer_with_one_connection)
        ∧ connection_counter s' = 2
        ∧ closed s' = closed peer_with_one_connection
        ∧ lock s' = false
        ∧ events_since peer_with_one_connection s'
          = [EvAccept 0%nat;
             EvRecv 2%nat;
             EvSend 2%nat (int_encode 5000);
             EvPrint (nl +:+ "New connection from " +:+ "10.0.0.4" +:+ ":" +:+ pretty 6001);
             EvPrint ">> ";
             EvSpawn 2 2%nat "10.0.0.4"].
Proof.
  apply (accepted_connection_is_registered ascii_lib inbound_ok_2 "10.0.0.4"
           (int_encode 6001) 6001 peer_with_one_connection); try reflexivity.
  - decide_by_compute.
  - decide_by_compute.
Defined.

(** What a dial that returned [True] did. *)
Lemma dial_true_inv (lib : PyLib) (net : DialNet) (ip : string) (p : Z) (s s1 : Sys) :
  connect_to_peer lib net ip p s = Ret true s1 →
  inet_aton lib ip = true
  ∧ ¬ duplicate_connection ip p s
  ∧ ∃ data their_port,
      d_recv net = IoOk data
      ∧ handshake_port lib data = Some their_port
      ∧ connections s1
        = <[connection_counter s + 1 := Conn (S (next_sock s)) ip their_port]>
            (connections s).
Proof.
  unfold connect_to_peer.
  destruct (inet_aton lib ip); simpl; [| discriminate].
  unfold mbind at 1, M_bind at 1, bind at 1. rewrite get_my_ip_run.
  run.
  destruct (bool_decide (ip = my_ip_of (d_route net) s) && bool_decide (p = port s));
    simpl; [discriminate |].
  destruct (existsb (is_duplicate ip p) (dict_values (connections s))) eqn:Hdup;
    simpl; [discriminate |].
  intros H. split; [done |]. split.
  { rewrite <- duplicate_found. by rewrite Hdup. }
  destruct (d_recv net) as [data | |] eqn:Hrecv.
  - exists data. pose proof (int_of_bytes_run lib data) as Hint.
    destruct (handshake_port lib data) as [tp |].
    + exists tp. split; [done |]. split; [done |].
      revert H. simpl.
      repeat split_match; try discriminate.
      match goal with
      | E : int_of_bytes _ _ _ = _ |- _ => rewrite Hint in E; injection E as <- <-
      end.
      by intros [= <-].
    + exfalso. revert H. simpl.
      repeat split_match; try discriminate.
      match goal with
      | E : int_of_bytes _ _ ?X = _ |- _ =>
          destruct (Hint X) as (msg & Hmsg); rewrite Hmsg in E; discriminate E
      end.
  - exfalso. revert H. simpl. repeat split_match; discriminate.
  - exfalso. revert H. simpl. repeat split_match; discriminate.
Qed.

(** X8: after a dial to (ip, port) returned [True], the table holds
    that peer with the port it advertised, and (ip, port) counts as a
    duplicate exactly when the advertised port is the dialled one.  In
    that case every further dial to (ip, port) returns [False] and
    leaves the table as it is. *)
Theorem redial_is_duplicate_iff_port_advertised
    (lib : PyLib) (net : DialNet) (ip : string) (p : Z) (s s1 : Sys) :
  connect_to_peer lib net ip p s = Ret true s1 →
  ∃ c their_port,
    connections s1 !! (connection_counter s + 1) = Some (Conn c ip their_port)
    ∧ (duplicate_connection ip p s1 ↔ their_port = p)
    ∧ (their_port = p →
       ∀ net2, ∃ s2, connect_to_peer lib net2 ip p s1 = Ret false s2
                     ∧ connections s2 = connections s1).
Proof.
  intros H. destruct (dial_true_inv lib net ip p s s1 H)
    as (Haton & Hnodup & data & tp & Hrecv & Hport & Hconn).
  exists (S (next_sock s)), tp.
  assert (duplicate_connection ip p s1 ↔ tp = p) as Hiff.
  { unfold duplicate_connection. rewrite Hconn. split.
    - intros (k & c & Hk & Ha & Hp). rewrite lookup_insert in Hk.
      case_decide as Hid.
      + by injection Hk as <-.
      + exfalso. apply Hnodup. by exists k, c.
    - intros <-. eexists _, _. rewrite lookup_insert_eq. done. }
  split; [by rewrite Hconn, lookup_insert_eq |]. split; [exact Hiff |].
  intros Htp net2. apply Hiff in Htp.
  destruct (decide (self_connection net2 ip p s1)) as [Hself | Hself].
  - rewrite connect_to_peer_self by done. by eexists.
  - rewrite connect_to_peer_duplicate by done. by eexists.
Qed.

Lemma redial_is_duplicate_iff_port_advertised_witness :
  ∃ c their_port,
    connections
      (state_of (connect_to_peer ascii_lib dial_ok "10.0.0.3" 7000
                   peer_with_one_connection))
      !! (connection_counter peer_with_one_connection + 1)
    = Some (Conn c "10.0.0.3" their_port)
    ∧ (duplicate_connection "10.0.0.3" 7000
         (state_of (connect_to_peer ascii_lib dial_ok "10.0.0.3" 7000
                      peer_with_one_connection))
       ↔ their_port = 7000)
    ∧ (their_port = 7000 →
       ∀ net2, ∃ s2,
         connect_to_peer ascii_lib net2 "10.0.0.3" 7000
           (state_of (connect_to_peer ascii_lib dial_ok "10.0.0.3" 7000
                        peer_with_one_connection))
         = Ret false s2
         ∧ connections s2
           = connections
               (state_of (connect_to_peer ascii_lib dial_ok "10.0.0.3" 7000
                            peer_with_one_connection))).
Proof.
  apply (redial_is_duplicate_iff_port_advertised ascii_lib dial_ok "10.0.0.3" 7000
           peer_with_one_connection).
  vm_compute. reflexivity.
Defined.

(** ** [accept_connections]: the loop *)

(** X9: when every inbound connection of a run of the listener's loop
    is well formed, the i-th one is stored under the id i places after
    the counter, with the i-th socket handed out after the run began and
    with its own address and advertised port; the entries that were in
    the table stay, and the loop is still running when the connections
    are used up. *)
Theorem inbound_connections_get_consecutive_ids
    (lib : PyLib) (script : list AcceptNet) (s : Sys) :
  running s = true →
  lock s = false →
  server_socket s ∉ closed s →
  (∀ x, x ∈ closed s → (x < next_sock s)%nat) →
  Forall (well_formed_inbound lib) script →
  ∃ s', accept_connections lib script s = Ret StillLooping s'
        ∧ connection_counter s' = connection_counter s + Z.of_nat (length script)
        ∧ next_sock s' = (next_sock s + length script)%nat
        ∧ closed s' = closed s
        ∧ (∀ (i : nat) net,
             script !! i = Some net →
             ∃ addr data p,
               a_accept net = IoOk addr
               ∧ a_recv net = IoOk data
               ∧ handshake_port lib data = Some p
               ∧ connections s' !! (connection_counter s + 1 + Z.of_nat i)
                 = Some (Conn (next_sock s + i)%nat addr p))
        ∧ (∀ k, k ≤ connection_counter s →
                connections s' !! k = connections s !! k).
Proof.
  revert s. induction script as [| net script IH];
    intros s Hrun Hlock Hsrv Hcl Hwf.
  - exists s. simpl. unfold mbind, M_bind, bind, get. rewrite Hrun.
    repeat split; try done; try lia.
  - apply Forall_cons in Hwf as [(addr & data & p & Hacc & Hrecv & Hport & Hsend) Hwf].
    assert (next_sock s ∉ closed s) as Hfresh.
    { intros Hx. apply Hcl in Hx. lia. }
    destruct (accept_iteration_registers lib net addr data p s)
      as (s1 & Hit & H1 & H2 & H3 & H4 & H5 & H6 & H7 & _); try done.
    destruct (IH s1) as (s' & Hloop & Hc & Hn & Hcl' & Hnew & Hold); try done.
    + congruence.
    + by rewrite H4, H7.
    + intros x. rewrite H4, H3. intros Hx%Hcl. lia.
    + exists s'. rewrite accept_connections_turn by done.
      unfold mbind, M_bind, bind. rewrite Hit.
      split; [exact Hloop |]. simpl length.
      split; [lia |]. split; [lia |]. split; [congruence |]. split.
      * intros [| i] net' Hi; simpl in Hi.
        -- injection Hi as <-. exists addr, data, p. repeat split; try done.
           rewrite Hold by lia. rewrite H1.
           replace (connection_counter s + 1 + Z.of_nat 0)
             with (connection_counter s + 1) by lia.
           rewrite lookup_insert_eq. by rewrite Nat.add_0_r.
        -- destruct (Hnew i net' Hi) as (a' & d' & p' & Ha & Hd & Hp & Hl).
           exists a', d', p'. repeat split; try done.
           replace (connection_counter s + 1 + Z.of_nat (S i))
             with (connection_counter s1 + 1 + Z.of_nat i) by lia.
           replace (next_sock s + S i)%nat with (next_sock s1 + i)%nat by lia.
           exact Hl.
      * intros k Hk. rewrite Hold by lia. rewrite H1.
        apply lookup_insert_ne. lia.
Qed.

Lemma inbound_connections_get_consecutive_ids_witness :
  ∃ s', accept_connections ascii_lib [inbound_ok; inbound_ok_2] (init 5000)
        = Ret StillLooping s'
        ∧ connection_counter s' = 0 + Z.of_nat 2
        ∧ next_sock s' = (1 + 2)%nat
        ∧ closed s' = ∅
        ∧ (∀ (i : nat) net,
             [inbound_ok; inbound_ok_2] !! i = Some net →
             ∃ addr data p,
               a_accept net = IoOk addr
               ∧ a_recv net = IoOk data
               ∧ handshake_port ascii_lib data = Some p
               ∧ connections s' !! (0 + 1 + Z.of_nat i)
                 = Some (Conn (1 + i)%nat addr p))
        ∧ (∀ k, k ≤ 0 → connections s' !! k = (∅ : gmap Z conn) !! k).
Proof.
  apply (inbound_connections_get_consecutive_ids ascii_lib
           [inbound_ok; inbound_ok_2] (init 5000)); try reflexivity.
  - decide_by_compute.
  - intros x Hx. by apply not_elem_of_empty in Hx.
  - repeat constructor.
    + by exists "10.0.0.2", (int_encode 6000), 6000.
    + by exists "10.0.0.4", (int_encode 6001), 6001.
Defined.

(** ** [handle_disconnect] and [terminate_connection] *)

Lemma unlock_after_lock (s : Sys) : lock s = false → set_lock false (set_lock true s) = s.
Proof. intros H. destruct s. simpl in *. by subst. Qed.

Lemma handle_disconnect_absent (conn_id : Z) (s : Sys) :
  lock s = false →
  connections s !! conn_id = None →
  handle_disconnect conn_id s = Ret tt s.
Proof.
  intros Hlock Hnone. unfold handle_disconnect. run. rewrite Hlock. simpl.
  rewrite Hnone. simpl. by rewrite unlock_after_lock.
Qed.

Lemma handle_disconnect_present (conn_id : Z) (c : conn) (s : Sys) :
  lock s = false →
  connections s !! conn_id = Some c →
  ∃ s1, handle_disconnect conn_id s = Ret tt s1
        ∧ connections s1 = delete conn_id (connections s)
        ∧ closed s1 = {[c_sock c]} ∪ closed s
        ∧ lock s1 = false
        ∧ running s1 = running s
        ∧ connection_counter s1 = connection_counter s
        ∧ trace s1
          = trace s ++ [EvClose (c_sock c); EvPrint (terminated_line conn_id c);
                        EvPrint ">> "].
Proof.
  intros Hlock Hc. destruct c as [sock addr p]. eexists. split.
  - unfold handle_disconnect. run. rewrite Hlock. simpl. rewrite Hc. simpl.
    rewrite Hc. simpl. reflexivity.
  - simpl. repeat split. unfold terminated_line. simpl. by rewrite <- !app_assoc.
Qed.

(** X10: with the lock free, [handle_disconnect] on an id that is not
    in the table does nothing at all (no print, no socket call); on an
    id that is in the table it closes the socket of the entry, deletes
    the entry and prints the status line and the prompt, after which a
    second call does nothing. *)
Theorem disconnect_removes_or_ignores (conn_id : Z) (s : Sys) :
  lock s = false →
  (connections s !! conn_id = None → handle_disconnect conn_id s = Ret tt s)
  ∧ (∀ c, connections s !! conn_id = Some c →
       ∃ s1, handle_disconnect conn_id s = Ret tt s1
             ∧ connections s1 = delete conn_id (connections s)
             ∧ closed s1 = {[c_sock c]} ∪ closed s
             ∧ events_since s s1
               = [EvClose (c_sock c); EvPrint (terminated_line conn_id c);
                  EvPrint ">> "]
             ∧ handle_disconnect conn_id s1 = Ret tt s1).
Proof.
  intros Hlock. split.
  - by apply handle_disconnect_absent.
  - intros c Hc.
    destruct (handle_disconnect_present conn_id c s Hlock Hc)
      as (s1 & Hd & H1 & H2 & H3 & _ & _ & H4).
    exists s1. repeat split; try done.
    + by apply events_since_app.
    + apply handle_disconnect_absent; [done |]. rewrite H1. apply lookup_delete_eq.
Qed.

Lemma disconnect_removes_or_ignores_witness :
  handle_disconnect 2 peer_with_one_connection = Ret tt peer_with_one_connection
  ∧ ∃ s1, handle_disconnect 1 peer_with_one_connection = Ret tt s1
          ∧ connections s1 = delete 1 (connections peer_with_one_connection)
          ∧ closed s1 = {[1%nat]} ∪ closed peer_with_one_connection
          ∧ events_since peer_with_one_connection s1
            = [EvClose 1%nat;
               EvPrint (terminated_line 1 (Conn 1%nat "10.0.0.2" 6000));
               EvPrint ">> "]
          ∧ handle_disconnect 1 s1 = Ret tt s1.
Proof.
  destruct (disconnect_removes_or_ignores 2 peer_with_one_connection eq_refl)
    as [H2 _].
  destruct (disconnect_removes_or_ignores 1 peer_with_one_connection eq_refl)
    as [_ H1].
  split; [apply H2; reflexivity |].
  apply (H1 (Conn 1%nat "10.0.0.2" 6000)). reflexivity.
Defined.

(** [send_message] to an id that is not in the table. *)
Lemma send_to_missing_id (write : io unit) (conn_id : Z) (message : pystr) (s : Sys) :
  lock s = false →
  connections s !! conn_id = None →
  ∃ line, send_message write conn_id message s = Ret false (log (EvPrint line) s)
          ∧ ((length message ≤ 100)%nat →
             line = "Connection " +:+ pretty conn_id +:+ " does not exist").
Proof.
  intros Hlock Hnone. unfold send_message.
  destruct (100 <? Z.of_nat (length message)) eqn:Hlen.
  - eexists. split; [reflexivity |]. apply Z.ltb_lt in Hlen. lia.
  - run. rewrite Hlock. simpl. rewrite Hnone. simpl.
    eexists. split; [| done]. destruct s. simpl in *. by subst.
Qed.

(** What a [terminate_connection] that returned [True] did. *)
Lemma terminate_true_inv (conn_id : Z) (s s1 : Sys) :
  terminate_connection conn_id s = Ret true s1 →
  ∃ c, connections s !! conn_id = Some c
       ∧ lock s = false
       ∧ lock s1 = false
       ∧ running s1 = running s
       ∧ connections s1 = delete conn_id (connections s)
       ∧ closed s1 = {[c_sock c]} ∪ closed s.
Proof.
  unfold terminate_connection. run.
  destruct (lock s) eqn:Hlock; [discriminate |]. simpl.
  destruct (connections s !! conn_id) as [[sock addr p] |] eqn:Hc; simpl;
    [| discriminate].
  rewrite Hc. simpl. intros [= <-]. by eexists.
Qed.

(** X11: once [terminate_connection] has returned [True] for an id, a
    [send_message] to that id returns [False] whatever the message and
    the network: it prints one line (that the connection does not exist,
    for a message of at most 100 characters), makes no socket call and
    changes nothing else. *)
Theorem send_after_terminate_reports_missing
    (conn_id : Z) (s s1 : Sys) (write : io unit) (message : pystr) :
  terminate_connection conn_id s = Ret true s1 →
  ∃ line, send_message write conn_id message s1 = Ret false (log (EvPrint line) s1)
          ∧ ((length message ≤ 100)%nat →
             line = "Connection " +:+ pretty conn_id +:+ " does not exist").
Proof.
  intros H. destruct (terminate_true_inv conn_id s s1 H)
    as (c & _ & _ & Hlock & _ & Hconn & _).
  apply send_to_missing_id; [done |]. rewrite Hconn. apply lookup_delete_eq.
Qed.

Lemma send_after_terminate_reports_missing_witness :
  ∃ line,
    send_message (IoOk tt) 1 message_hi
      (state_of (terminate_connection 1 peer_with_one_connection))
    = Ret false
        (log (EvPrint line) (state_of (terminate_connection 1 peer_with_one_connection)))
    ∧ ((length message_hi ≤ 100)%nat →
       line = "Connection " +:+ pretty 1 +:+ " does not exist").
Proof.
  apply (send_after_terminate_reports_missing 1 peer_with_one_connection
           (state_of (terminate_connection 1 peer_with_one_connection))
           (IoOk tt) message_hi).
  vm_compute. reflexivity.
Defined.

(** ** [handle_connection]: the reader loop *)

(** The first turn of the reader loop is taken when the flag is set. *)
Lemma handle_connection_turn (lib : PyLib) (recv : io (list byte))
    (rest : list (io (list byte))) (conn_id : Z) (c : Sock) (addr : string) (s : Sys) :
  running s = true →
  handle_connection lib (recv :: rest) conn_id c addr s
  = (ctl ← reader_iteration lib recv conn_id c addr;
     match ctl with
     | Continue => handle_connection lib rest conn_id c addr
     | Break => ret LoopLeft
     end) s.
Proof.
  intros Hrun. simpl. unfold mbind at 1, M_bind at 1, bind at 1, get at 1.
  rewrite Hrun. reflexivity.
Qed.

(** X12: when a read returns no bytes (the peer closed the connection),
    the reader tears the connection down and its loop ends: the socket
    of the table entry is closed, the entry is deleted, the status line
    and the prompt are printed, and no further read is made. *)
Theorem reader_eof_disconnects
    (lib : PyLib) (conn_id : Z) (client_socket : Sock) (addr : string)
    (e : conn) (rest : list (io (list byte))) (s : Sys) :
  bytes_decode lib [] = Some [] →
  running s = true →
  lock s = false →
  client_socket ∉ closed s →
  connections s !! conn_id = Some e →
  ∃ s', handle_connection lib (IoOk [] :: rest) conn_id client_socket addr s
        = Ret LoopLeft s'
        ∧ connections s' = delete conn_id (connections s)
        ∧ closed s' = {[c_sock e]} ∪ closed s
        ∧ events_since s s'
          = [EvRecv client_socket; EvClose (c_sock e);
             EvPrint (terminated_line conn_id e); EvPrint ">> "].
Proof.
  intros Hdec Hrun Hlock Hopen He.
  destruct (handle_disconnect_present conn_id e (log (EvRecv client_socket) s))
    as (s1 & Hd & H1 & H2 & _ & _ & _ & H3); try done.
  exists s1. rewrite handle_connection_turn by done.
  unfold reader_iteration. run. rewrite bool_decide_eq_false_2 by done. simpl.
  rewrite Hdec. simpl. rewrite Hd. simpl.
  repeat split; try done.
  apply events_since_app. rewrite H3. simpl. by rewrite <- app_assoc.
Qed.

Lemma reader_eof_disconnects_witness :
  ∃ s', handle_connection ascii_lib [IoOk []; IoTimeout] 1 1%nat "10.0.0.2"
          peer_with_one_connection
        = Ret LoopLeft s'
        ∧ connections s' = delete 1 (connections peer_with_one_connection)
        ∧ closed s' = {[1%nat]} ∪ closed peer_with_one_connection
        ∧ events_since peer_with_one_connection s'
          = [EvRecv 1%nat; EvClose 1%nat;
             EvPrint (terminated_line 1 (Conn 1%nat "10.0.0.2" 6000)); EvPrint ">> "].
Proof.
  apply (reader_eof_disconnects ascii_lib 1 1%nat "10.0.0.2"
           (Conn 1%nat "10.0.0.2" 6000) [IoTimeout] peer_with_one_connection);
    try reflexivity.
  decide_by_compute.
Defined.

(** X13: a read that times out is not an error: the turn of the reader
    loop ends with nothing printed and nothing changed, and the loop
    goes on with its next read. *)
Theorem reader_timeout_retries
    (lib : PyLib) (conn_id : Z) (client_socket : Sock) (addr : string)
    (rest : list (io (list byte))) (s : Sys) :
  running s = true →
  client_socket ∉ closed s →
  reader_iteration lib IoTimeout conn_id client_socket addr s
  = Ret Continue (log (EvRecv client_socket) s)
  ∧ handle_connection lib (IoTimeout :: rest) conn_id client_socket addr s
    = handle_connection lib rest conn_id client_socket addr
        (log (EvRecv client_socket) s).
Proof.
  intros Hrun Hopen.
  assert (reader_iteration lib IoTimeout conn_id client_socket addr s
          = Ret Continue (log (EvRecv client_socket) s)) as H.
  { unfold reader_iteration. run. by rewrite bool_decide_eq_false_2. }
  split; [exact H |]. rewrite handle_connection_turn by done.
  unfold mbind, M_bind, bind. by rewrite H.
Qed.

Lemma reader_timeout_retries_witness :
  reader_iteration ascii_lib IoTimeout 1 1%nat "10.0.0.2" peer_with_one_connection
  = Ret Continue (log (EvRecv 1%nat) peer_with_one_connection)
  ∧ handle_connection ascii_lib [IoTimeout] 1 1%nat "10.0.0.2"
      peer_with_one_connection
    = handle_connection ascii_lib [] 1 1%nat "10.0.0.2"
        (log (EvRecv 1%nat) peer_with_one_connection).
Proof.
  apply (reader_timeout_retries ascii_lib 1 1%nat "10.0.0.2" []
           peer_with_one_connection); [reflexivity | decide_by_compute].
Defined.

(** X14: a read that fails with an error ends the reader's turn with
    [Break].  While the flag is set the connection is torn down as for a
    closed peer; once the flag is cleared the reader leaves silently:
    nothing is closed, removed or printed, and the lock is not taken. *)
Theorem reader_error_disconnects_unless_stopping
    (lib : PyLib) (msg : string) (conn_id : Z) (client_socket : Sock)
    (addr : string) (s : Sys) :
  client_socket ∉ closed s →
  (running s = false →
   reader_iteration lib (IoErr msg) conn_id client_socket addr s
   = Ret Break (log (EvRecv client_socket) s))
  ∧ (running s = true → lock s = false →
     ∀ e, connections s !! conn_id = Some e →
          ∃ s', reader_iteration lib (IoErr msg) conn_id client_socket addr s
                = Ret Break s'
                ∧ connections s' = delete conn_id (connections s)
                ∧ closed s' = {[c_sock e]} ∪ closed s
                ∧ events_since s s'
                  = [EvRecv client_socket; EvClose (c_sock e);
                     EvPrint (terminated_line conn_id e); EvPrint ">> "]).
Proof.
  intros Hopen. split.
  - intros Hrun. unfold reader_iteration. run.
    rewrite bool_decide_eq_false_2 by done. simpl. by rewrite Hrun.
  - intros Hrun Hlock e He.
    destruct (handle_disconnect_present conn_id e (log (EvRecv client_socket) s))
      as (s1 & Hd & H1 & H2 & _ & _ & _ & H3); try done.
    exists s1. unfold reader_iteration. run.
    rewrite bool_decide_eq_false_2 by done. simpl. rewrite Hrun. simpl.
    rewrite Hd. simpl. repeat split; try done.
    apply events_since_app. rewrite H3. simpl. by rewrite <- app_assoc.
Qed.

Lemma reader_error_disconnects_unless_stopping_witness :
  reader_iteration ascii_lib (IoErr "Connection reset by peer") 1 1%nat "10.0.0.2"
    (set_running false peer_with_one_connection)
  = Ret Break (log (EvRecv 1%nat) (set_running false peer_with_one_connection))
  ∧ ∃ s', reader_iteration ascii_lib (IoErr "Connection reset by peer") 1 1%nat
            "10.0.0.2" peer_with_one_connection
          = Ret Break s'
          ∧ connections s' = delete 1 (connections peer_with_one_connection)
          ∧ closed s' = {[1%nat]} ∪ closed peer_with_one_connection
          ∧ events_since peer_with_one_connection s'
            = [EvRecv 1%nat; EvClose 1%nat;
               EvPrint (terminated_line 1 (Conn 1%nat "10.0.0.2" 6000));
               EvPrint ">> "].
Proof.
  split.
  - apply (reader_error_disconnects_unless_stopping ascii_lib
             "Connection reset by peer" 1 1%nat "10.0.0.2"
             (set_running false peer_with_one_connection));
      [decide_by_compute | reflexivity].
  - apply (proj2 (reader_error_disconnects_unless_stopping ascii_lib
                    "Connection reset by peer" 1 1%nat "10.0.0.2"
                    peer_with_one_connection ltac:(decide_by_compute))
             eq_refl eq_refl (Conn 1%nat "10.0.0.2" 6000) eq_refl).
Defined.

(** X15: a read that returns text shows it with the address the reader
    was started with and the port of the table entry, and changes
    nothing; only the first 1024 bytes of what arrived are read.  When
    the entry of the reader's id is no longer in the table, the reader
    stops instead, printing nothing and changing nothing. *)
Theorem reader_shows_message_of_live_entry
    (lib : PyLib) (data : list byte) (text : pystr) (conn_id : Z)
    (client_socket : Sock) (addr : string) (s : Sys) :
  client_socket ∉ closed s →
  bytes_decode lib (take 1024 data) = Some text →
  text ≠ [] →
  (∀ e, connections s !! conn_id = Some e →
        ∃ s', reader_iteration lib (IoOk data) conn_id client_socket addr s
              = Ret Continue s'
              ∧ core s' = core s
              ∧ events_since s s'
                = [EvRecv client_socket;
                   EvPrint (nl +:+ "Message received from " +:+ addr);
                   EvPrint ("Sender's Port: " +:+ pretty (c_port e));
                   EvPrintMessage text;
                   EvPrint ">> "])
  ∧ (connections s !! conn_id = None → running s = true → lock s = false →
     reader_iteration lib (IoOk data) conn_id client_socket addr s
     = Ret Break (log (EvRecv client_socket) s)).
Proof.
  intros Hopen Hdec Htext. split.
  - intros e He. unfold reader_iteration. run.
    rewrite bool_decide_eq_false_2 by done. simpl. rewrite Hdec. simpl.
    rewrite (bool_decide_eq_false_2 (text = [])) by done. simpl.
    rewrite He. simpl. eexists. split; [reflexivity |]. split; [done |].
    apply events_since_app. simpl. by rewrite <- !app_assoc.
  - intros Hnone Hrun Hlock. unfold reader_iteration. run.
    rewrite bool_decide_eq_false_2 by done. simpl. rewrite Hdec. simpl.
    rewrite (bool_decide_eq_false_2 (text = [])) by done. simpl.
    rewrite Hnone. simpl. rewrite Hrun. simpl.
    by rewrite handle_disconnect_absent.
Qed.

Lemma reader_shows_message_of_live_entry_witness :
  (∀ e, connections peer_with_one_connection !! 1 = Some e →
        ∃ s', reader_iteration ascii_lib (IoOk (String.list_byte_of_string "hi")) 1
                1%nat "10.0.0.2" peer_with_one_connection
              = Ret Continue s'
              ∧ core s' = core peer_with_one_connection
              ∧ events_since peer_with_one_connection s'
                = [EvRecv 1%nat;
                   EvPrint (nl +:+ "Message received from " +:+ "10.0.0.2");
                   EvPrint ("Sender's Port: " +:+ pretty (c_port e));
                   EvPrintMessage message_hi;
                   EvPrint ">> "])
  ∧ (connections peer_with_one_connection !! 1 = None →
     running peer_with_one_connection = true →
     lock peer_with_one_connection = false →
     reader_iteration ascii_lib (IoOk (String.list_byte_of_string "hi")) 1 1%nat
       "10.0.0.2" peer_with_one_connection
     = Ret Break (log (EvRecv 1%nat) peer_with_one_connection)).
Proof.
  apply (reader_shows_message_of_live_entry ascii_lib
           (String.list_byte_of_string "hi") message_hi 1 1%nat "10.0.0.2"
           peer_with_one_connection);
    [decide_by_compute | reflexivity | discriminate].
Defined.

(** ** [list_connections] *)

Lemma StronglySorted_le_lt (l : list Z) :
  StronglySorted Z.le l → NoDup l → StronglySorted Z.lt l.
Proof.
  induction 1 as [| x l Hs IH Hx]; intros Hnd; [constructor |].
  apply NoDup_cons in Hnd as [Hnotin Hnd]. constructor; [by apply IH |].
  rewrite Forall_forall in Hx. apply Forall_forall. intros y Hy.
  assert (x ≠ y) by (intros ->; done). specialize (Hx y Hy). lia.
Qed.

Lemma dict_keys_sorted (m : gmap Z conn) : StronglySorted Z.lt (dict_keys m).
Proof.
  apply StronglySorted_le_lt; [| apply dict_keys_NoDup].
  unfold dict_keys. apply StronglySorted_merge_sort; apply _.
Qed.

Lemma dict_items_keys (m : gmap Z conn) : (dict_items m).*1 = dict_keys m.
Proof.
  unfold dict_items.
  assert (∀ k, k ∈ dict_keys m → is_Some (m !! k)) as H.
  { intros k. by rewrite dict_keys_elem. }
  induction (dict_keys m) as [| k l IH]; [done |]. simpl.
  destruct (H k) as [c Hc]; [left |]. rewrite Hc. simpl. f_equal.
  apply IH. intros k' Hk'. apply H. by right.
Qed.

Lemma dict_items_elem (m : gmap Z conn) (k : Z) (c : conn) :
  (k, c) ∈ dict_items m ↔ m !! k = Some c.
Proof.
  unfold dict_items. rewrite list_elem_of_omap. split.
  - intros (k' & _ & Hk'). destruct (m !! k') eqn:E; simpl in Hk'; congruence.
  - intros Hk. exists k. split; [apply dict_keys_elem; eauto |]. by rewrite Hk.
Qed.

Lemma list_rows_run (rows : list (Z * conn)) (s : Sys) :
  ∃ s', foldr (fun '(conn_id, c) k =>
                 print (pretty conn_id +:+ ": " +:+ ljust15 (c_addr c) +:+ " "
                        +:+ pretty (c_port c)) ;; k)
              (ret tt) rows s
        = Ret tt s'
        ∧ core s' = core s ∧ lock s' = lock s ∧ running s' = running s
        ∧ trace s' = trace s ++ map (fun r => EvPrint (connection_row r.1 r.2)) rows.
Proof.
  revert s. induction rows as [| [k c] rows IH]; intros s; simpl.
  - exists s. by rewrite app_nil_r.
  - run. destruct (IH (log (EvPrint (connection_row k c)) s))
      as (s' & Hrun & H1 & H2 & H3 & H4).
    exists s'. split; [exact Hrun |]. repeat split; try done.
    rewrite H4. simpl. by rewrite <- app_assoc.
Qed.

(** X16: [list_connections] always returns, whether or not the lock is
    taken, and changes nothing but the output.  For an empty table it
    prints one line saying so; otherwise it prints the header and then
    one row per entry of the table, each entry once, by ascending id. *)
Theorem list_prints_each_entry_by_ascending_id (s : Sys) :
  ∃ s', list_connections s = Ret tt s'
        ∧ core s' = core s ∧ lock s' = lock s ∧ running s' = running s
        ∧ (connections s = ∅ →
           events_since s s' = [EvPrint "No active connections"])
        ∧ (connections s ≠ ∅ →
           ∃ rows,
             events_since s s'
             = EvPrint "id: IP address      Port No."
               :: map (fun r => EvPrint (connection_row r.1 r.2)) rows
             ∧ StronglySorted Z.lt rows.*1
             ∧ ∀ conn_id c, (conn_id, c) ∈ rows ↔ connections s !! conn_id = Some c).
Proof.
  unfold list_connections. run. case_bool_decide as Hempty; simpl.
  - eexists. split; [reflexivity |]. repeat split; try done.
    intros _. apply events_since_log.
  - destruct (list_rows_run (dict_items (connections s))
                (log (EvPrint "id: IP address      Port No.") s))
      as (s' & Hrun & H1 & H2 & H3 & H4).
    exists s'. split; [exact Hrun |]. repeat split; try done.
    intros _. exists (dict_items (connections s)). split; [| split].
    + apply events_since_app. rewrite H4. simpl. by rewrite <- app_assoc.
    + rewrite dict_items_keys. apply dict_keys_sorted.
    + intros k c. apply dict_items_elem.
Qed.

(** ** [get_my_ip] *)

(** X17: [get_my_ip] never raises and never waits for the lock.  It
    creates one datagram socket and closes it on every path; it returns
    the address of the route when the probe succeeds and "127.0.0.1"
    when the probe fails in any way; the table and the counter are left
    alone. *)
Theorem get_my_ip_closes_probe_and_falls_back (route : io string) (s : Sys) :
  ∃ ip s', get_my_ip route s = Ret ip s'
           ∧ (next_sock s ∈ closed s')
           ∧ next_sock s' = S (next_sock s)
           ∧ connections s' = connections s
           ∧ connection_counter s' = connection_counter s
           ∧ lock s' = lock s
           ∧ events_since s s'
             = [EvSocket (next_sock s) SOCK_DGRAM;
                EvConnect (next_sock s) "10.255.255.255" 1;
                EvClose (next_sock s)]
           ∧ (∀ a, next_sock s ∉ closed s → route = IoOk a → ip = a)
           ∧ (io_ok route = false → ip = "127.0.0.1").
Proof.
  exists (my_ip_of route s), (probe s). split; [apply get_my_ip_run |].
  repeat split; try done.
  - simpl. set_solver.
  - apply events_since_app. simpl. by rewrite <- !app_assoc.
  - intros a Hopen ->. unfold my_ip_of. by rewrite bool_decide_eq_false_2.
  - intros Hfail. unfold my_ip_of. case_bool_decide; [done |].
    by destruct route.
Qed.

(** ** [accept_connections]: turns that register nothing *)

(** X18: a turn of the listener's loop in which [accept] times out ends
    silently with nothing changed.  A turn in which [accept] fails with
    an error prints the error while the flag is set and is silent once
    the flag is cleared; in both cases no socket is handed out, the
    table is untouched and the loop is not left by an exception. *)
Theorem accept_timeout_silent_error_reported
    (lib : PyLib) (net : AcceptNet) (s : Sys) :
  server_socket s ∉ closed s →
  (a_accept net = IoTimeout →
   accept_iteration lib net s = Ret tt (log (EvAccept (server_socket s)) s))
  ∧ (∀ msg, a_accept net = IoErr msg →
       accept_iteration lib net s
       = Ret tt (if running s
                 then log (EvPrint ("Error accepting connection: " +:+ msg))
                        (log (EvAccept (server_socket s)) s)
                 else log (EvAccept (server_socket s)) s)).
Proof.
  intros Hopen. split.
  - intros Hacc. unfold accept_iteration, listener_except, listener_accept. run.
    rewrite Hacc. by rewrite bool_decide_eq_false_2.
  - intros msg Hacc. unfold accept_iteration, listener_except, listener_accept. run.
    rewrite Hacc. rewrite bool_decide_eq_false_2 by done. simpl.
    by destruct (running s).
Qed.

Lemma accept_timeout_silent_error_reported_witness :
  accept_iteration ascii_lib accept_timeout peer_with_one_connection
  = Ret tt (log (EvAccept 0%nat) peer_with_one_connection).
Proof.
  apply (accept_timeout_silent_error_reported ascii_lib accept_timeout
           peer_with_one_connection); [decide_by_compute | reflexivity].
Defined.

(** What a turn of the listener's loop that advanced the counter did. *)
Lemma accept_iteration_inv (lib : PyLib) (net : AcceptNet) (s : Sys) :
  connection_counter (state_of (accept_iteration lib net s)) ≠ connection_counter s →
  ∃ addr data p,
    a_accept net = IoOk addr ∧ a_recv net = IoOk data
    ∧ handshake_port lib data = Some p ∧ a_send net = IoOk tt
    ∧ lock s = false
    ∧ (server_socket s ∉ closed s) ∧ (next_sock s ∉ closed s).
Proof.
  unfold accept_iteration, listener_except, listener_accept, listener_handshake.
  run.
  destruct (bool_decide (server_socket s ∈ closed s)) eqn:Hsrv; simpl.
  { destruct (running s); simpl; intros H; by destruct H. }
  destruct (a_accept net) as [addr | | msg] eqn:Hacc; simpl;
    [| intros H; by destruct H | destruct (running s); intros H; by destruct H].
  destruct (bool_decide (next_sock s ∈ closed s)) eqn:Hfresh; simpl.
  { destruct (running s); simpl; intros H; by destruct H. }
  destruct (a_recv net) as [data | | msg] eqn:Hrecv; simpl;
    [| intros H; by destruct H | destruct (running s); intros H; by destruct H].
  pose proof (int_of_bytes_run lib data (log (EvRecv (next_sock s))
    (set_next_sock (S (next_sock s)) (log (EvAccept (server_socket s)) s)))) as Hint.
  destruct (handshake_port lib data) as [p |] eqn:Hport.
  - rewrite Hint. simpl. rewrite Hfresh. simpl.
    destruct (a_send net) as [[] | | msg] eqn:Hsend; simpl;
      [| intros H; by destruct H | destruct (running s); intros H; by destruct H].
    destruct (lock s) eqn:Hlock; simpl; [intros H; by destruct H |].
    intros _. exists addr, data, p. repeat split; try done.
    + by apply bool_decide_eq_false in Hsrv.
    + by apply bool_decide_eq_false in Hfresh.
  - destruct Hint as (msg & ->). simpl.
    destruct (running s); intros H; by destruct H.
Qed.

(** X19: the listener adds an entry only after the whole handshake: if
    a turn of its loop advanced the counter, then [accept] returned, the
    peer's first bytes were read and parsed as its port, the own port
    was sent on the accepted socket and that write succeeded; the new
    entry is the accepted socket with the peer's address and that port.
    A peer that connects and stays silent, sends garbage or cannot be
    written to never gets an id. *)
Theorem listener_registers_only_after_handshake
    (lib : PyLib) (net : AcceptNet) (s : Sys) :
  running s = true →
  connection_counter (state_of (accept_iteration lib net s)) ≠ connection_counter s →
  ∃ addr data p s',
    a_accept net = IoOk addr ∧ a_recv net = IoOk data
    ∧ handshake_port lib data = Some p ∧ a_send net = IoOk tt
    ∧ accept_iteration lib net s = Ret tt s'
    ∧ connections s'
      = <[connection_counter s + 1 := Conn (next_sock s) addr p]> (connections s)
    ∧ EvSend (next_sock s) (int_encode (port s)) ∈ events_since s s'.
Proof.
  intros Hrun H.
  destruct (accept_iteration_inv lib net s H)
    as (addr & data & p & Hacc & Hrecv & Hport & Hsend & Hlock & Hsrv & Hfresh).
  destruct (accept_iteration_registers lib net addr data p s)
    as (s' & Hs' & H1 & _ & _ & _ & _ & _ & _ & _ & H9); try done.
  exists addr, data, p, s'. repeat split; try done.
  rewrite (events_since_app s s' _ H9). set_solver.
Qed.

Lemma listener_registers_only_after_handshake_witness :
  ∃ addr data p s',
    a_accept inbound_ok = IoOk addr ∧ a_recv inbound_ok = IoOk data
    ∧ handshake_port ascii_lib data = Some p ∧ a_send inbound_ok = IoOk tt
    ∧ accept_iteration ascii_lib inbound_ok (init 5000) = Ret tt s'
    ∧ connections s'
      = <[connection_counter (init 5000) + 1 := Conn (next_sock (init 5000)) addr p]>
          (connections (init 5000))
    ∧ EvSend (next_sock (init 5000)) (int_encode (port (init 5000)))
      ∈ events_since (init 5000) s'.
Proof.
  apply (listener_registers_only_after_handshake ascii_lib inbound_ok (init 5000));
    [reflexivity |].
  vm_compute. discriminate.
Defined.

(** X20: an inbound peer that connects and then sends nothing within
    the socket's timeout is dropped without a trace on the screen: the
    turn ends normally, nothing is printed, nothing is sent, no entry is
    made and no reader thread is started; the accepted socket is left
    as it is (it is not closed). *)
Theorem silent_peer_is_dropped_quietly
    (lib : PyLib) (net : AcceptNet) (addr : string) (s : Sys) :
  server_socket s ∉ closed s →
  next_sock s ∉ closed s →
  a_accept net = IoOk addr →
  a_recv net = IoTimeout →
  ∃ s', accept_iteration lib net s = Ret tt s'
        ∧ connections s' = connections s
        ∧ connection_counter s' = connection_counter s
        ∧ closed s' = closed s
        ∧ next_sock s' = S (next_sock s)
        ∧ events_since s s' = [EvAccept (server_socket s); EvRecv (next_sock s)].
Proof.
  intros Hsrv Hfresh Hacc Hrecv.
  unfold accept_iteration, listener_except, listener_accept, listener_handshake.
  run. rewrite Hacc, Hrecv. rewrite !bool_decide_eq_false_2 by done. simpl.
  eexists. split; [reflexivity |]. repeat split.
  apply events_since_app. simpl. by rewrite <- !app_assoc.
Qed.

Lemma silent_peer_is_dropped_quietly_witness :
  ∃ s', accept_iteration ascii_lib inbound_silent peer_with_one_connection = Ret tt s'
        ∧ connections s' = connections peer_with_one_connection
        ∧ connection_counter s' = connection_counter peer_with_one_connection
        ∧ closed s' = closed peer_with_one_connection
        ∧ next_sock s' = S (next_sock peer_with_one_connection)
        ∧ events_since peer_with_one_connection s'
          = [EvAccept (server_socket peer_with_one_connection);
             EvRecv (next_sock peer_with_one_connection)].
Proof.
  apply (silent_peer_is_dropped_quietly ascii_lib inbound_silent "10.0.0.5"
           peer_with_one_connection); try reflexivity; decide_by_compute.
Defined.

(** ** Methods in the states the process reaches *)

(** X21: in a state the process reaches, with the lock free, a message
    of at most 100 characters that can be encoded, sent to an id of the
    table over a network that takes the write, goes out on the socket of
    that entry and [send_message] returns [True]: the socket of an entry
    is never a closed one, so the write is attempted. *)
Theorem send_to_table_entry_goes_out
    (lib : PyLib) (cfg : config) (conn_id : Z) (c : conn)
    (message : pystr) (data : list byte) :
  reachable lib cfg →
  lock (cfg_sys cfg) = false →
  connections (cfg_sys cfg) !! conn_id = Some c →
  (length message ≤ 100)%nat →
  str_encode message = Some data →
  ∃ s', send_message (IoOk tt) conn_id message (cfg_sys cfg) = Ret true s'
        ∧ core s' = core (cfg_sys cfg)
        ∧ lock s' = false
        ∧ events_since (cfg_sys cfg) s'
          = [EvSend (c_sock c) data; EvPrint ("Message sent to " +:+ pretty conn_id)].
Proof.
  intros Hreach Hlock Hc Hlen Henc.
  destruct (reachable_ok lib cfg Hreach) as [Hok _].
  pose proof (ok_open _ Hok conn_id c Hc) as Hopen.
  destruct cfg as [s pc]. simpl in *.
  unfold send_message. rewrite length_check_within by done.
  run. rewrite Hlock. simpl. rewrite Hc. simpl. rewrite Hc. simpl.
  rewrite Henc. simpl. rewrite bool_decide_eq_false_2 by done. simpl.
  eexists. split; [reflexivity |]. repeat split.
  apply events_since_app. simpl. by rewrite <- !app_assoc.
Qed.

Lemma send_to_table_entry_goes_out_witness :
  ∃ s', send_message (IoOk tt) 1 message_hi peer_with_one_connection = Ret true s'
        ∧ core s' = core peer_with_one_connection
        ∧ lock s' = false
        ∧ events_since peer_with_one_connection s'
          = [EvSend 1%nat [byte_of_Z 104; byte_of_Z 105];
             EvPrint ("Message sent to " +:+ pretty 1)].
Proof.
  apply (send_to_table_entry_goes_out ascii_lib
           (Config peer_with_one_connection AtLoopHead) 1
           (Conn 1%nat "10.0.0.2" 6000) message_hi
           [byte_of_Z 104; byte_of_Z 105]
           peer_with_one_connection_reachable); try reflexivity.
  simpl. lia.
Defined.

(** X22: after [terminate_connection] returned [True] for an id, the
    reader thread of that connection ends at its next read, whatever the
    network would have delivered: the read fails on the closed socket,
    the entry is already gone, so nothing is printed, nothing more is
    closed and the loop is left. *)
Theorem reader_ends_after_terminate
    (lib : PyLib) (conn_id : Z) (c : conn) (addr : string) (s s1 : Sys)
    (recv : io (list byte)) (rest : list (io (list byte))) :
  connections s !! conn_id = Some c →
  running s = true →
  terminate_connection conn_id s = Ret true s1 →
  reader_iteration lib recv conn_id (c_sock c) addr s1
  = Ret Break (log (EvRecv (c_sock c)) s1)
  ∧ handle_connection lib (recv :: rest) conn_id (c_sock c) addr s1
    = Ret LoopLeft (log (EvRecv (c_sock c)) s1).
Proof.
  intros Hc Hrun H.
  destruct (terminate_true_inv conn_id s s1 H)
    as (c' & Hc' & _ & Hlock & Hrun1 & Hconn & Hclosed).
  assert (c' = c) as -> by congruence.
  assert (reader_iteration lib recv conn_id (c_sock c) addr s1
          = Ret Break (log (EvRecv (c_sock c)) s1)) as Hturn.
  { unfold reader_iteration. run.
    rewrite bool_decide_eq_true_2
      by (rewrite Hclosed; apply elem_of_union_l, elem_of_singleton; reflexivity).
    simpl.
    rewrite Hrun1, Hrun. simpl.
    rewrite handle_disconnect_absent; [done | done |].
    simpl. rewrite Hconn. apply lookup_delete_eq. }
  split; [exact Hturn |].
  rewrite handle_connection_turn by congruence.
  unfold mbind, M_bind, bind. by rewrite Hturn.
Qed.

Lemma reader_ends_after_terminate_witness :
  reader_iteration ascii_lib (IoOk (String.list_byte_of_string "hi")) 1 1%nat
    "10.0.0.2" (state_of (terminate_connection 1 peer_with_one_connection))
  = Ret Break
      (log (EvRecv 1%nat) (state_of (terminate_connection 1 peer_with_one_connection)))
  ∧ handle_connection ascii_lib [IoOk (String.list_byte_of_string "hi")] 1 1%nat
      "10.0.0.2" (state_of (terminate_connection 1 peer_with_one_connection))
    = Ret LoopLeft
        (log (EvRecv 1%nat) (state_of (terminate_connection 1 peer_with_one_connection))).
Proof.
  apply (reader_ends_after_terminate ascii_lib 1 (Conn 1%nat "10.0.0.2" 6000)
           "10.0.0.2" peer_with_one_connection
           (state_of (terminate_connection 1 peer_with_one_connection))
           (IoOk (String.list_byte_of_string "hi")) []); reflexivity.
Defined.

(** ** The handshake between two peers *)

Lemma digit_byte (d : N) :
  (d < 10)%N → Byte.to_N (byte_of_ascii (pretty_N_char d)) = (48 + d)%N.
Proof.
  intros H.
  assert (d = 0 ∨ d = 1 ∨ d = 2 ∨ d = 3 ∨ d = 4 ∨ d = 5 ∨ d = 6 ∨ d = 7
          ∨ d = 8 ∨ d = 9)%N as Hd by lia.
  repeat (destruct Hd as [-> | Hd]; [reflexivity |]). by subst.
Qed.


Lemma code_points_cons (a : ascii) (s : string) :
  code_points (String a s) = Z.of_N (Byte.to_N (byte_of_ascii a)) :: code_points s.
Proof. reflexivity. Qed.

(** Reading back the digits [pretty] writes. *)
Lemma decimal_scan_digits (x : N) (s : string) :
  decimal_scan (code_points (pretty_N_go x s)) 0
  = decimal_scan (code_points s) (Z.of_N x).
Proof.
  revert s. induction (N.lt_wf_0 x) as [x _ IH]. intros s.
  destruct (decide (x = 0)%N) as [-> | Hx]; [by rewrite pretty_N_go_0 |].
  rewrite pretty_N_go_step by lia.
  rewrite IH by (apply N.div_lt; lia).
  rewrite code_points_cons. simpl decimal_scan.
  rewrite digit_byte by (apply N.mod_lt; lia).
  pose proof (N.mod_lt x 10 ltac:(lia)) as Hmod.
  pose proof (N.div_mod x 10 ltac:(lia)) as Hdiv.
  revert Hmod Hdiv. generalize (x `mod` 10)%N (x `div` 10)%N. intros d q Hd Hq.
  replace ((48 <=? Z.of_N (48 + d)) && (Z.of_N (48 + d) <=? 57))
    with true by (symmetry; apply andb_true_iff; split; apply Z.leb_le; lia).
  f_equal. lia.
Qed.



Lemma pretty_pos (q : positive) : pretty (Z.pos q) = pretty_N_go (N.pos q) "".
Proof. reflexivity. Qed.

(** [int(str(n))] is [n] for a natural number. *)
Lemma decimal_int_str_of_int (n : Z) : 0 ≤ n → decimal_int (str_of_int n) = Some n.
Proof.
  intros Hn. destruct n as [| q | q]; [reflexivity | | lia].
  unfold str_of_int. rewrite pretty_pos.
  pose proof (decimal_scan_digits (N.pos q) "") as H. simpl in H.
  unfold decimal_int. destruct (code_points (pretty_N_go (N.pos q) "")); [| exact H].
  simpl in H. discriminate H.
Qed.




(** ** The start of the program *)

(** X24: started with one argument that is the decimal form of a
    natural number [n], the script constructs the peer on port [n]
    exactly when [n] lies between 1024 and 65535; outside that range it
    prints the port message and exits with status 1.  With any other
    number of arguments it prints the usage line and exits with
    status 1. *)
Theorem main_starts_peer_iff_port_in_range (prog : pystr) (n : Z) :
  0 ≤ n →
  (main ascii_lib [prog; str_of_int n] = StartupPeer n ↔ 1024 ≤ n ≤ 65535)
  ∧ (¬ 1024 ≤ n ≤ 65535 →
     main ascii_lib [prog; str_of_int n]
     = StartupExit "Port must be a number between 1024 and 65535" 1)
  ∧ (∀ argv, length argv ≠ 2%nat →
       main ascii_lib argv = StartupExit "Usage: python chat.py <port>" 1).
Proof.
  intros Hn. unfold main. simpl py_int. rewrite decimal_int_str_of_int by done.
  destruct (n <? 1024) eqn:Hlo; simpl.
  { apply Z.ltb_lt in Hlo. split; [split; [discriminate | lia] |].
    split; [done |]. by intros [| ? [| ? [| ? ?]]]. }
  destruct (65535 <? n) eqn:Hhi; simpl.
  { apply Z.ltb_lt in Hhi. split; [split; [discriminate | lia] |].
    split; [done |]. by intros [| ? [| ? [| ? ?]]]. }
  apply Z.ltb_ge in Hlo, Hhi. split; [split; [lia | done] |].
  split; [lia |]. by intros [| ? [| ? [| ? ?]]].
Qed.

Lemma main_starts_peer_iff_port_in_range_witness :
  (main ascii_lib [[]; str_of_int 5000] = StartupPeer 5000 ↔ 1024 ≤ 5000 ≤ 65535)
  ∧ (¬ 1024 ≤ 5000 ≤ 65535 →
     main ascii_lib [[]; str_of_int 5000]
     = StartupExit "Port must be a number between 1024 and 65535" 1)
  ∧ (∀ argv, length argv ≠ 2%nat →
       main ascii_lib argv = StartupExit "Usage: python chat.py <port>" 1).
Proof.
  apply (main_starts_peer_iff_port_in_range [] 5000). lia.
Defined.

(** ** The lock, once it is stuck *)

(** X25: while the lock is held and never released (as after a
    [send_message] whose write failed), the peer cannot be shut down:
    [handle_shutdown] prints its line and clears the flag, then waits
    for the lock forever, so no socket is closed, the table is not
    emptied and the process does not exit.  [terminate_connection],
    [handle_disconnect] and a [send_message] that passes the length
    check wait forever as well, without any effect. *)
Theorem stuck_lock_blocks_shutdown (down : Sock → io unit) (s : Sys) :
  lock s = true →
  (∃ s', handle_shutdown down s = Hang s'
         ∧ running s' = false
         ∧ connections s' = connections s
         ∧ closed s' = closed s
         ∧ events_since s s' = [EvPrint (nl +:+ "Shutting down...")])
  ∧ (∀ conn_id, terminate_connection conn_id s = Hang s)
  ∧ (∀ conn_id, handle_disconnect conn_id s = Hang s)
  ∧ (∀ write conn_id message,
       (length message ≤ 100)%nat →
       send_message write conn_id message s = Hang s).
Proof.
  intros Hlock. split; [| split; [| split]].
  - eexists. split.
    + unfold handle_shutdown, shutdown_begin, shutdown_rest. run.
      rewrite Hlock. reflexivity.
    + repeat split. apply events_since_log.
  - intros conn_id. unfold terminate_connection, with_lock. by rewrite Hlock.
  - intros conn_id. unfold handle_disconnect, with_lock. by rewrite Hlock.
  - intros write conn_id message Hlen. unfold send_message.
    rewrite length_check_within by done. unfold with_lock. by rewrite Hlock.
Qed.

Lemma stuck_lock_blocks_shutdown_witness :
  (∃ s', handle_shutdown shutdown_refused stuck_after_send = Hang s'
         ∧ running s' = false
         ∧ connections s' = connections stuck_after_send
         ∧ closed s' = closed stuck_after_send
         ∧ events_since stuck_after_send s' = [EvPrint (nl +:+ "Shutting down...")])
  ∧ (∀ conn_id, terminate_connection conn_id stuck_after_send = Hang stuck_after_send)
  ∧ (∀ conn_id, handle_disconnect conn_id stuck_after_send = Hang stuck_after_send)
  ∧ (∀ write conn_id message,
       (length message ≤ 100)%nat →
       send_message write conn_id message stuck_after_send = Hang stuck_after_send).
Proof.
  apply (stuck_lock_blocks_shutdown shutdown_refused stuck_after_send).
  reflexivity.
Defined.
